(** * ai-agent-infrastructure: the frontend route handlers, the OAuth hook,
      the process-and-discard email pipeline and the usage guard.

    The TypeScript handlers of [frontend/src] and the Python pipeline of
    [project_overview.md] are embedded as Rocq functions; what a handler gets
    from its surroundings (the parsed request, the backend's answer, the clock,
    the external services) is an argument of the embedded function. *)

From Stdlib Require Import ZArith QArith Lia DecimalString.
From Stdlib Require String Ascii.
From stdpp Require Import gmap strings list.

Local Open Scope Z_scope.
Set Warnings "-register-all,-clear-no-such-hyp".
Set Default Proof Using "Type".

(** ** JavaScript values, completions and the effects of a handler *)

Module Js.

(** A parsed JSON document. Numbers are the integer literals; objects keep the
    order of their members. *)
Inductive json : Type :=
| JNull
| JBool (b : bool)
| JNum (n : Z)
| JStr (s : string)
| JArr (items : list json)
| JObj (fields : list (string * json)).

(** A JavaScript value that is either a JSON value or [undefined] ([None]). *)
Definition value : Type := option json.

(** ToBoolean: [undefined], [null], [false], [0] and the empty string are falsy. *)
Definition truthy (v : value) : bool :=
  match v with
  | None => false
  | Some JNull => false
  | Some (JBool b) => b
  | Some (JNum n) => negb (n =? 0)
  | Some (JStr s) => negb (String.eqb s "")
  | Some (JArr _) => true
  | Some (JObj _) => true
  end.

(** [a || d] where the default [d] is a JSON value. *)
Definition or_else (a : value) (d : json) : json :=
  match a with
  | Some j => if truthy a then j else d
  | None => d
  end.

(** Member lookup in an object literal produced by JSON.parse: of two members
    with one name the later one wins. *)
Fixpoint member (k : string) (fields : list (string * json)) : value :=
  match fields with
  | [] => None
  | (k', v) :: rest =>
      match member k rest with
      | Some w => Some w
      | None => if String.eqb k k' then Some v else None
      end
  end.

(** A thrown value: [is_Error] is [e instanceof Error], [message] is [e.message]. *)
Record thrown : Type := { is_Error : bool; message : string }.

Inductive completion (A : Type) : Type :=
| Normal (a : A)
| Throw (e : thrown).
Arguments Normal {A} a.
Arguments Throw {A} e.

(** Reading a property of [null] throws a TypeError (V8's wording). *)
Definition TypeError_null (prop : string) : thrown :=
  {| is_Error := true;
     message := "Cannot read properties of null (reading '" +:+ prop +:+ "')" |}.

(** [o.k] for the member names the handlers read ([provider], [user_id],
    [detail], [error], [id], [email], [name], [image], [oauth_url]); none of them
    is a property of a string, number, boolean or array. *)
Definition get (o : json) (k : string) : completion value :=
  match o with
  | JNull => Throw (TypeError_null k)
  | JObj fields => Normal (member k fields)
  | _ => Normal None
  end.

(** [String(v)] for a JSON value: an array joins its items with commas, where
    [null] prints as nothing; an object prints as [[object Object]]. *)
Fixpoint to_string (j : json) : string :=
  match j with
  | JNull => "null"
  | JBool true => "true"
  | JBool false => "false"
  | JNum n => NilZero.string_of_int (Z.to_int n)
  | JStr s => s
  | JArr items =>
      String.concat ","
        (List.map (fun x => match x with JNull => "" | _ => to_string x end) items)
  | JObj _ => "[object Object]"
  end.

(** [new Error(v)] for a defined [v]. *)
Definition new_Error (v : json) : thrown :=
  {| is_Error := true; message := to_string v |}.

(** What [fetch] was called with. [payload] is the value given to
    JSON.stringify for the request body, if there is a body. *)
Record FetchRequest : Type := {
  url : string;
  method : string;
  headers : list (string * string);
  payload : option json
}.

(** What [fetch] resolved to: the status line and what [response.json()] and
    [response.text()] complete with. *)
Record FetchResponse : Type := {
  status : Z;
  json_body : completion json;
  text_body : completion string
}.

Definition ok (r : FetchResponse) : bool :=
  (200 <=? status r) && (status r <=? 299).

(** The network as a handler sees it. *)
Definition network : Type := FetchRequest -> completion FetchResponse.

(** An effectful computation: how it completes, and the requests it sent. *)
Definition Eff (A : Type) : Type := completion A * list FetchRequest.

Definition lift {A : Type} (c : completion A) : Eff A := (c, []).

Definition bind {A B : Type} (k : A -> Eff B) (m : Eff A) : Eff B :=
  match m with
  | (Normal a, sent) => let '(r, sent') := k a in (r, sent ++ sent')
  | (Throw e, sent) => (Throw e, sent)
  end.

#[global] Instance Eff_ret : MRet Eff := fun A a => (Normal a, []).

#[global] Instance Eff_bind : MBind Eff := @bind.

Definition try_catch {A : Type} (m : Eff A) (handler : thrown -> Eff A) : Eff A :=
  match m with
  | (Normal a, sent) => (Normal a, sent)
  | (Throw e, sent) => let '(r, sent') := handler e in (r, sent ++ sent')
  end.

Definition fetch (net : network) (rq : FetchRequest) : Eff FetchResponse :=
  (net rq, [rq]).

End Js.

Import Js.

Definition json_headers : list (string * string) :=
  [("Content-Type", "application/json")].

(** A response built by [NextResponse.json(body, {status})]. *)
Record HttpResponse : Type := {
  http_status : Z;
  http_body : json
}.

(** Statuses the Fetch standard forbids together with a body. *)
Definition null_body_status (s : Z) : bool :=
  (s =? 101) || (s =? 103) || (s =? 204) || (s =? 205) || (s =? 304).

(** [NextResponse.json(data, {status})]: a RangeError outside 200..599, a
    TypeError for a null-body status. *)
Definition NextResponse_json (data : json) (s : Z) : completion HttpResponse :=
  if (200 <=? s) && (s <=? 599) then
    if null_body_status s then
      Throw {| is_Error := true;
               message := "Response with null body status cannot have body" |}
    else Normal {| http_status := s; http_body := data |}
  else
    Throw {| is_Error := true;
             message := "init[status] must be in the range of 200 to 599, inclusive." |}.

(** [process.env.NEXT_PUBLIC_API_URL || 'http://localhost:8000'] *)
Definition backendUrl (api_url : option string) : string :=
  match api_url with
  | Some s => if String.eqb s "" then "http://localhost:8000" else s
  | None => "http://localhost:8000"
  end.

(** ** frontend/src/app/api/oauth/connect/route.ts *)

Module ConnectRoute.

Definition missing_fields_response : HttpResponse :=
  {| http_status := 400;
     http_body := JObj [("error", JStr "Missing provider or user_id")] |}.

Definition internal_error_response : HttpResponse :=
  {| http_status := 500;
     http_body := JObj [("error", JStr "Internal server error")] |}.

(** The request the handler forwards to the backend. *)
Definition connect_request (api_url : option string) (provider user_id : json)
  : FetchRequest :=
  {| url := backendUrl api_url +:+ "/api/auth/oauth/connect";
     method := "POST";
     headers := json_headers;
     payload := Some (JObj [("provider", provider); ("user_id", user_id)]) |}.

(** [const { provider, user_id } = body]: destructuring [null] throws. *)
Definition destructure (body : json) : completion (value * value) :=
  match body with
  | JNull =>
      Throw {| is_Error := true;
               message := "Cannot destructure property 'provider' of 'body' as it is null." |}
  | JObj fields => Normal (member "provider" fields, member "user_id" fields)
  | _ => Normal (None, None)
  end.

(** The body of the [try] block. *)
Definition POST_try (request_json : completion json) (api_url : option string)
    (net : network) : Eff HttpResponse :=
  body ← lift request_json;
  fields ← lift (destructure body);
  match fields with
  | (Some provider, Some user_id) =>
      if negb (truthy (Some provider)) || negb (truthy (Some user_id)) then
        lift (NextResponse_json (http_body missing_fields_response) 400)
      else
        response ← fetch net (connect_request api_url provider user_id);
        if negb (ok response) then
          errorData ← lift (json_body response);
          detail ← lift (get errorData "detail");
          lift (NextResponse_json
                  (JObj [("error", or_else detail (JStr "Failed to connect OAuth provider"))])
                  (status response))
        else
          data ← lift (json_body response);
          lift (NextResponse_json data 200)
  | _ => lift (NextResponse_json (http_body missing_fields_response) 400)
  end.

(** [export async function POST(request)] *)
Definition POST (request_json : completion json) (api_url : option string)
    (net : network) : Eff HttpResponse :=
  try_catch (POST_try request_json api_url net)
    (fun _ => lift (NextResponse_json (http_body internal_error_response) 500)).

(** The parsed body has no truthy [provider] or no truthy [user_id]. *)
Definition lacks_fields (body : json) : bool :=
  match get body "provider", get body "user_id" with
  | Normal p, Normal u => negb (truthy p) || negb (truthy u)
  | _, _ => true
  end.

End ConnectRoute.

(** ** frontend/src/app/api/auth/[...nextauth]/route.ts *)

Module NextAuthRoute.

(** The [credentials] argument: the submitted form fields, each possibly
    missing. *)
Record Credentials : Type := {
  cred_email : option string;
  cred_password : option string
}.

(** The object [authorize] returns; each member is whatever JavaScript value
    was put there. *)
Record User : Type := {
  user_id : value;
  user_email : value;
  user_name : value;
  user_image : value
}.

(** [!s] for a form field. *)
Definition field_truthy (s : option string) : bool :=
  match s with
  | Some s => negb (String.eqb s "")
  | None => false
  end.

(** The at sign, character 64. *)
Definition at_sign : Ascii.ascii :=
  Ascii.Ascii false false false false false false true false.

(** [email.split('@')[0]]: the text before the first at sign. *)
Fixpoint email_prefix (s : string) : string :=
  match s with
  | EmptyString => EmptyString
  | String c rest =>
      if Ascii.eqb c at_sign then EmptyString else String c (email_prefix rest)
  end.

(** A template literal prints an unset environment variable as "undefined". *)
Definition template_env (v : option string) : string :=
  match v with
  | Some s => s
  | None => "undefined"
  end.

Definition user_lookup_request (api_url : option string) (email : string)
  : FetchRequest :=
  {| url := template_env api_url +:+ "/api/auth/users/email/" +:+ email;
     method := "GET";
     headers := json_headers;
     payload := None |}.

Definition fallback_user (email : string) : User :=
  {| user_id := Some (JStr ("user-" +:+ email));
     user_email := Some (JStr email);
     user_name := Some (JStr (email_prefix email));
     user_image := Some JNull |}.

(** The body of the [try] block, for a non-empty [email]. *)
Definition authorize_try (api_url : option string) (net : network)
    (email : string) : Eff (option User) :=
  response ← fetch net (user_lookup_request api_url email);
  if ok response then
    user ← lift (json_body response);
    id ← lift (get user "id");
    mail ← lift (get user "email");
    name ← lift (get user "name");
    image ← lift (get user "image");
    mret (Some {| user_id := id;
                  user_email := mail;
                  user_name := Some (or_else name (JStr (email_prefix email)));
                  user_image := image |})
  else
    errorText ← lift (text_body response);
    mret (Some (fallback_user email)).

(** [async authorize(credentials)]; [None] is the [null] that refuses the
    sign-in. *)
Definition authorize (api_url : option string) (net : network)
    (credentials : option Credentials) : Eff (option User) :=
  match credentials with
  | Some c =>
      if negb (field_truthy (cred_email c)) || negb (field_truthy (cred_password c))
      then mret None
      else
        match cred_email c with
        | Some email =>
            try_catch (authorize_try api_url net email)
              (fun _ => mret (Some (fallback_user email)))
        | None => mret None
        end
  | None => mret None
  end.

End NextAuthRoute.

(** ** frontend/src/lib/hooks/use-oauth.ts *)

Module UseOAuth.

(** The four [useState] cells of the hook. [serviceStatus] holds the JSON the
    status route answered, [JNull] before the first answer. *)
Record HookState : Type := {
  serviceStatus : json;
  loading : bool;
  error : option string;
  lastRefresh : Z
}.

Definition initial : HookState :=
  {| serviceStatus := JNull; loading := false; error := None; lastRefresh := 0 |}.

Definition setServiceStatus (v : json) (st : HookState) : HookState :=
  {| serviceStatus := v; loading := loading st; error := error st;
     lastRefresh := lastRefresh st |}.

Definition setLoading (v : bool) (st : HookState) : HookState :=
  {| serviceStatus := serviceStatus st; loading := v; error := error st;
     lastRefresh := lastRefresh st |}.

Definition setError (v : option string) (st : HookState) : HookState :=
  {| serviceStatus := serviceStatus st; loading := loading st; error := v;
     lastRefresh := lastRefresh st |}.

Definition setLastRefresh (v : Z) (st : HookState) : HookState :=
  {| serviceStatus := serviceStatus st; loading := loading st; error := error st;
     lastRefresh := v |}.

Definition status_request (userId : string) : FetchRequest :=
  {| url := "/api/services/status?user_id=" +:+ userId;
     method := "GET";
     headers := json_headers;
     payload := None |}.

(** The [try] block of [refreshStatus] up to the value it hands to
    [setServiceStatus]. *)
Definition refreshStatus_try (userId : string) (net : network) : Eff json :=
  response ← fetch net (status_request userId);
  if negb (ok response) then
    errorData ← lift (json_body response);
    err ← lift (get errorData "error");
    lift (Throw (new_Error (or_else err (JStr "Failed to get service status"))))
  else
    lift (json_body response).

(** [err instanceof Error ? err.message : 'An error occurred'] *)
Definition error_text (err : thrown) : string :=
  if is_Error err then message err else "An error occurred".

(** One call of the [refreshStatus] closure that was created in a render where
    the state cell [lastRefresh] held [seen]. [now] is what [Date.now()]
    returns. The result is the hook state after the call's setters and the
    requests the call sent. *)
Definition refreshStatus (seen : Z) (userId : string) (now : Z) (net : network)
    (st : HookState) : HookState * list FetchRequest :=
  if now - seen <? 2000 then (st, [])
  else
    let st := setLastRefresh now (setError None (setLoading true st)) in
    let '(outcome, sent) := refreshStatus_try userId net in
    let st :=
      match outcome with
      | Normal data => setServiceStatus data st
      | Throw err => setError (Some (error_text err)) st
      end in
    (setLoading false st, sent).

(** A call made through the closure of the latest render: it sees the current
    [lastRefresh]. *)
Definition call (st : HookState) (userId : string) (now : Z) (net : network)
  : HookState * list FetchRequest :=
  refreshStatus (lastRefresh st) userId now net st.

End UseOAuth.

(** ** project_overview.md: the process-and-discard email pipeline *)

Module Pipeline.

(** A raised Python exception: its class name, [str(e)], and whether it is an
    instance of [Exception] (a cancellation is not). *)
Record exn : Type := {
  exn_class : string;
  exn_text : string;
  is_Exception : bool
}.

Inductive result (A : Type) : Type :=
| Return (a : A)
| Raise (e : exn).
Arguments Return {A} a.
Arguments Raise {A} e.

(** The [EmailAnalysis] object the AI client returns. *)
Record EmailAnalysis : Type := {
  sender_domain : string;
  subject : string;
  word_count : Z;
  is_sales_opportunity : bool;
  confidence : Q;
  keywords : list string;
  estimated_value : option Q;
  safe_summary : string;
  tokens_used : Z;
  cost : Q
}.

(** A row of [email_analysis_logs], with the members of [log_data]. *)
Record EmailAnalysisLog : Type := {
  log_user_id : string;
  log_sender_domain : string;
  subject_hash : string;
  subject_length : nat;
  body_word_count : Z;
  log_is_sales_opportunity : bool;
  confidence_score : Q;
  keywords_detected : list string;
  ai_reasoning : string;
  deal_created : bool;
  log_tokens_used : Z;
  cost_incurred : Q
}.

(** The data handed to [websocket_manager.send_update]. *)
Record Update : Type := {
  update_type : string;
  update_analysis : EmailAnalysis;
  update_deal_created : bool
}.

(** The calls that leave the pipeline. *)
Inductive Capability : Type :=
| CheckLimits
| GetOutlookClient
| GetEmailContent
| GetAIClient
| AnalyzeEmail
| GetPipedriveClient
| SearchDeals
| CreateDeal
| DbCommit
| TrackUsage
| SendText.

Definition Capability_index (c : Capability) : nat :=
  match c with
  | CheckLimits => 0
  | GetOutlookClient => 1
  | GetEmailContent => 2
  | GetAIClient => 3
  | AnalyzeEmail => 4
  | GetPipedriveClient => 5
  | SearchDeals => 6
  | CreateDeal => 7
  | DbCommit => 8
  | TrackUsage => 9
  | SendText => 10
  end.

Definition Capability_eqb (c1 c2 : Capability) : bool :=
  Nat.eqb (Capability_index c1) (Capability_index c2).

(** How a call ended: the exception it raised, the analysis or the number of
    deals it returned, or a plain return. *)
Inductive Outcome : Type :=
| Raised (e : exn)
| Returned
| Analysis (a : EmailAnalysis)
| Deals (n : nat).

(** One entry of the call record of a run. *)
Record Event : Type := Called { capability : Capability; outcome : Outcome }.

(** The outcome of the first recorded call of [c], if [c] was called. *)
Fixpoint outcome_of (c : Capability) (evs : list Event) : option Outcome :=
  match evs with
  | [] => None
  | ev :: rest =>
      if Capability_eqb (capability ev) c then Some (outcome ev)
      else outcome_of c rest
  end.

(** Number of recorded calls of [c]. *)
Fixpoint calls_of (c : Capability) (evs : list Event) : nat :=
  match evs with
  | [] => 0
  | ev :: rest =>
      if Capability_eqb (capability ev) c then S (calls_of c rest)
      else calls_of c rest
  end.

(** [create_deal] was called and returned. *)
Definition created (evs : list Event) : bool :=
  match outcome_of CreateDeal evs with
  | Some Returned => true
  | _ => false
  end.

Section WithServices.

Context {Ext OutlookClient AIClient PipedriveClient Deal WebSocket : Type}.

(** The collaborators of the pipeline ([usage_monitor], [auth_manager] and the
    clients it hands out, the database session, a web socket), each a function
    of the state [Ext] of the outside world. *)
Record Services : Type := {
  check_limits : string -> Ext -> result unit * Ext;
  get_outlook_client : string -> Ext -> result OutlookClient * Ext;
  get_email_content : OutlookClient -> string -> Ext -> result string * Ext;
  get_ai_client : string -> Ext -> result AIClient * Ext;
  analyze_email : AIClient -> string -> Ext -> result EmailAnalysis * Ext;
  get_pipedrive_client : string -> Ext -> result PipedriveClient * Ext;
  search_deals : PipedriveClient -> list string -> Ext -> result (list Deal) * Ext;
  create_deal : PipedriveClient -> EmailAnalysis -> Ext -> result Deal * Ext;
  db_commit : Ext -> result unit * Ext;
  track_usage : string -> Z -> Q -> Ext -> result unit * Ext;
  send_text : WebSocket -> Update -> Ext -> result unit * Ext;
  hash_subject : string -> string
}.

(** What the pipeline can change: the outside world, the log table, the lines
    written by [logger.error], the open web sockets, and the local variable
    [email_content] of the running call. *)
Record State : Type := {
  ext : Ext;
  email_analysis_logs : list EmailAnalysisLog;
  logger_errors : list string;
  active_connections : gmap string WebSocket;
  email_content : option string
}.

Definition set_ext (x : Ext) (st : State) : State :=
  {| ext := x; email_analysis_logs := email_analysis_logs st;
     logger_errors := logger_errors st;
     active_connections := active_connections st;
     email_content := email_content st |}.

Definition set_email_content (c : option string) (st : State) : State :=
  {| ext := ext st; email_analysis_logs := email_analysis_logs st;
     logger_errors := logger_errors st;
     active_connections := active_connections st;
     email_content := c |}.

Definition add_log (l : EmailAnalysisLog) (st : State) : State :=
  {| ext := ext st; email_analysis_logs := email_analysis_logs st ++ [l];
     logger_errors := logger_errors st;
     active_connections := active_connections st;
     email_content := email_content st |}.

Definition add_logger_error (line : string) (st : State) : State :=
  {| ext := ext st; email_analysis_logs := email_analysis_logs st;
     logger_errors := logger_errors st ++ [line];
     active_connections := active_connections st;
     email_content := email_content st |}.

Definition set_connections (c : gmap string WebSocket) (st : State) : State :=
  {| ext := ext st; email_analysis_logs := email_analysis_logs st;
     logger_errors := logger_errors st;
     active_connections := c;
     email_content := email_content st |}.

(** A step of the pipeline: it returns or raises, changes the state, and
    records the calls it made. *)
Definition M (A : Type) : Type := State -> result A * State * list Event.

Definition M_bind {A B : Type} (k : A -> M B) (m : M A) : M B :=
  fun st =>
    match m st with
    | (Return a, st1, evs1) =>
        let '(r, st2, evs2) := k a st1 in (r, st2, evs1 ++ evs2)
    | (Raise e, st1, evs1) => (Raise e, st1, evs1)
    end.

#[global] Instance M_ret : MRet M := fun A a st => (Return a, st, []).

#[global] Instance M_mbind : MBind M := @M_bind.

Definition raise {A : Type} (e : exn) : M A := fun st => (Raise e, st, []).

Definition modify (f : State -> State) : M unit := fun st => (Return tt, f st, []).

(** A call of a collaborator, recorded with its outcome. *)
Definition call {A : Type} (c : Capability) (describe : A -> Outcome)
    (f : Ext -> result A * Ext) : M A :=
  fun st =>
    let '(r, x) := f (ext st) in
    (r, set_ext x st,
     [Called c match r with Return a => describe a | Raise e => Raised e end]).

(** [try: body  except Exception as e: handler(e); raise  finally: final] *)
Definition try_except_finally {A : Type} (body : M A) (handler : exn -> M unit)
    (final : M unit) : M A :=
  fun st =>
    match body st with
    | (Return a, st1, evs1) =>
        let '(rf, st2, evs2) := final st1 in
        (match rf with Return _ => Return a | Raise e => Raise e end,
         st2, evs1 ++ evs2)
    | (Raise e, st1, evs1) =>
        let '(rh, st2, evs2) :=
          if is_Exception e then handler e st1 else (Return tt, st1, []) in
        let '(rf, st3, evs3) := final st2 in
        (match rf, rh with
         | Raise e', _ => Raise e'
         | Return _, Raise e' => Raise e'
         | Return _, Return _ => Raise e
         end, st3, evs1 ++ evs2 ++ evs3)
    end.

Variable svc : Services.

Definition ValueError (text : string) : exn :=
  {| exn_class := "ValueError"; exn_text := text; is_Exception := true |}.

Definition KeyError (key : string) : exn :=
  {| exn_class := "KeyError"; exn_text := "'" +:+ key +:+ "'"; is_Exception := true |}.

(** The dictionary [log_data]. *)
Definition log_data (user_id : string) (analysis : EmailAnalysis)
    (deal_created : bool) : EmailAnalysisLog :=
  {| log_user_id := user_id;
     log_sender_domain := sender_domain analysis;
     subject_hash := hash_subject svc (subject analysis);
     subject_length := String.length (subject analysis);
     body_word_count := word_count analysis;
     log_is_sales_opportunity := is_sales_opportunity analysis;
     confidence_score := confidence analysis;
     keywords_detected := keywords analysis;
     ai_reasoning := safe_summary analysis;
     deal_created := deal_created;
     log_tokens_used := tokens_used analysis;
     cost_incurred := cost analysis |}.

(** [async def log_email_analysis(user_id, analysis, deal_created,
    email_content=None)]. The row is added when the session commits; a failed
    commit rolls the session back and raises. *)
Definition log_email_analysis (user_id : string) (analysis : EmailAnalysis)
    (deal_created : bool) (email_content : option string) : M unit :=
  match email_content with
  | Some _ => raise (ValueError "Email content must never be stored")
  | None =>
      _ ← call DbCommit (fun _ => Returned) (db_commit svc);
      modify (add_log (log_data user_id analysis deal_created))
  end.

(** [WebSocketManager.disconnect] *)
Definition disconnect (user_id : string) : M unit :=
  modify (fun st => set_connections (delete user_id (active_connections st)) st).

(** [WebSocketManager.send_update]: a failed send is answered by dropping the
    connection. *)
Definition send_update (user_id : string) (data : Update) : M unit :=
  fun st =>
    match active_connections st !! user_id with
    | Some ws =>
        match call SendText (fun _ => Returned) (send_text svc ws data) st with
        | (Return _, st1, evs) => (Return tt, st1, evs)
        | (Raise _, st1, evs) =>
            let '(r, st2, evs2) := disconnect user_id st1 in (r, st2, evs ++ evs2)
        end
    | None => (Return tt, st, [])
    end.

(** [webhook_data['message_id']] *)
Definition subscript (d : gmap string string) (key : string) : M string :=
  match d !! key with
  | Some v => mret v
  | None => raise (KeyError key)
  end.

(** [not existing_deals] *)
Definition is_empty {A : Type} (l : list A) : bool :=
  match l with
  | [] => true
  | _ :: _ => false
  end.

(** The [try] block of [process_email_webhook]. *)
Definition process_email_webhook_try (webhook_data : gmap string string)
    (user_id : string) : M unit :=
  _ ← call CheckLimits (fun _ => Returned) (check_limits svc user_id);
  outlook_client ← call GetOutlookClient (fun _ => Returned)
                      (get_outlook_client svc user_id);
  message_id ← subscript webhook_data "message_id";
  content ← call GetEmailContent (fun _ => Returned)
               (get_email_content svc outlook_client message_id);
  _ ← modify (set_email_content (Some content));
  ai_client ← call GetAIClient (fun _ => Returned) (get_ai_client svc user_id);
  analysis ← call AnalyzeEmail Analysis (analyze_email svc ai_client content);
  pipedrive_client ← call GetPipedriveClient (fun _ => Returned)
                        (get_pipedrive_client svc user_id);
  existing_deals ← call SearchDeals (fun ds => Deals (length ds))
                      (search_deals svc pipedrive_client (keywords analysis));
  deal_created ←
    (if is_sales_opportunity analysis && is_empty existing_deals then
       _ ← call CreateDeal (fun _ => Returned)
             (create_deal svc pipedrive_client analysis);
       mret true
     else mret false);
  _ ← log_email_analysis user_id analysis deal_created None;
  _ ← call TrackUsage (fun _ => Returned)
        (track_usage svc user_id (tokens_used analysis) (cost analysis));
  send_update user_id
    {| update_type := "email_processed";
       update_analysis := analysis;
       update_deal_created := deal_created |}.

(** [async def process_email_webhook(webhook_data, user_id)] *)
Definition process_email_webhook (webhook_data : gmap string string)
    (user_id : string) : M unit :=
  _ ← modify (set_email_content None);
  try_except_finally
    (process_email_webhook_try webhook_data user_id)
    (fun e => modify (add_logger_error
                        ("Email processing failed for user " +:+ user_id +:+ ": "
                         +:+ exn_text e)))
    (modify (set_email_content None)).

End WithServices.

Arguments Services : clear implicits.
Arguments State : clear implicits.

(** [needle in hay] *)
Definition occurs (needle hay : string) : bool :=
  match String.index 0 needle hay with
  | Some _ => true
  | None => false
  end.

(** The text-valued members of a log row. *)
Definition text_fields (l : EmailAnalysisLog) : list string :=
  [log_user_id l; log_sender_domain l; subject_hash l; ai_reasoning l]
  ++ keywords_detected l.

(** Some text member of the row contains [content]. *)
Definition retains (content : string) (l : EmailAnalysisLog) : bool :=
  existsb (occurs content) (text_fields l).

(** *** Stub collaborators, as a test would set them up

    The outside world is the list of deal titles in the CRM. The stub search
    returns the deals whose title contains one of the keywords; the stub
    create adds a deal titled as [PipedriveService.create_deal] titles it. *)
Record Stub : Type := {
  stub_limits : result unit;
  stub_content : result string;
  stub_analysis : result EmailAnalysis
}.

Definition deal_title (analysis : EmailAnalysis) : string :=
  String.concat " " (take 3 (keywords analysis)) +:+ " - AI Generated".

Definition stub_services (s : Stub) : Services (list string) unit unit unit string unit :=
  {| check_limits := fun _ crm => (stub_limits s, crm);
     get_outlook_client := fun _ crm => (Return tt, crm);
     get_email_content := fun _ _ crm => (stub_content s, crm);
     get_ai_client := fun _ crm => (Return tt, crm);
     analyze_email := fun _ _ crm => (stub_analysis s, crm);
     get_pipedrive_client := fun _ crm => (Return tt, crm);
     search_deals := fun _ kws crm =>
       (Return (List.filter (fun title => existsb (fun k => occurs k title) kws) crm), crm);
     create_deal := fun _ a crm => (Return (deal_title a), crm ++ [deal_title a]);
     db_commit := fun crm => (Return tt, crm);
     track_usage := fun _ _ _ crm => (Return tt, crm);
     send_text := fun _ _ crm => (Return tt, crm);
     hash_subject := fun subject => "sha256" |}.

Definition empty_state : State (list string) unit :=
  {| ext := []; email_analysis_logs := []; logger_errors := [];
     active_connections := ∅; email_content := None |}.

Definition sample_webhook : gmap string string := {[ "message_id" := "AAMk-1" ]}.

Definition sample_analysis : EmailAnalysis :=
  {| sender_domain := "example.com";
     subject := "Renewal";
     word_count := 4;
     is_sales_opportunity := true;
     confidence := 0;
     keywords := ["renewal"; "contract"];
     estimated_value := None;
     safe_summary := "Please send a quote";
     tokens_used := 150;
     cost := 0 |}.

Definition sample_stub : Stub :=
  {| stub_limits := Return tt;
     stub_content := Return "Please send a quote";
     stub_analysis := Return sample_analysis |}.

Definition timeout_error : exn :=
  {| exn_class := "TimeoutError"; exn_text := "Outlook timed out";
     is_Exception := true |}.

Definition limit_error : exn :=
  {| exn_class := "UsageLimitExceeded"; exn_text := "usage_limit_exceeded";
     is_Exception := true |}.



End Pipeline.

(** ** The usage guard of the specification *)

Module UsageGuard.

(** Modelled from the spec: the [UsageCounter] row, the [UsageLimits] row,
    [UsageGuard.checkAndReserve] and [UsageGuard.reconcile]. The repository
    calls [usage_monitor.check_limits] and [usage_monitor.track_usage] but
    does not contain them. Token counts are integers and costs are counted in
    the smallest currency unit. *)
Record UsageCounter : Type := {
  emails_processed : Z;
  tokens_used : Z;
  cost_incurred : Z
}.

Record UsageLimits : Type := {
  daily_email_limit : Z;
  monthly_token_limit : Z;
  daily_spend_limit : Z;
  monthly_spend_limit : Z
}.


(** The period keys the wall clock resolves to at the time of a call. *)
Record Clock : Type := { today : string; this_month : string }.

(** One row per (owner, period), in a table of day buckets and a table of
    month buckets; a period without a row counts from zero. *)
Record Counters : Type := {
  daily : gmap (string * string) UsageCounter;
  monthly : gmap (string * string) UsageCounter
}.

Definition zero : UsageCounter :=
  {| emails_processed := 0; tokens_used := 0; cost_incurred := 0 |}.

Definition row (table : gmap (string * string) UsageCounter) (owner period : string)
  : UsageCounter :=
  default zero (table !! (owner, period)).

Definition add (emails tokens cost : Z) (c : UsageCounter) : UsageCounter :=
  {| emails_processed := emails_processed c + emails;
     tokens_used := tokens_used c + tokens;
     cost_incurred := cost_incurred c + cost |}.

(** The handle of a provisional increment: whose counters, which periods, and
    the estimate that was added. *)
Record Reservation : Type := {
  res_owner : string;
  res_day : string;
  res_month : string;
  res_tokens : Z;
  res_cost : Z
}.

Inductive Decision : Type :=
| Granted (r : Reservation)
| LimitExceeded.

(** Headroom on the count axes and on the spend axes. *)
Definition headroom (limits : UsageLimits) (day month : UsageCounter)
    (estimatedTokens estimatedCost : Z) : bool :=
  (emails_processed day + 1 <=? daily_email_limit limits)
  && (tokens_used month + estimatedTokens <=? monthly_token_limit limits)
  && (cost_incurred day + estimatedCost <=? daily_spend_limit limits)
  && (cost_incurred month + estimatedCost <=? monthly_spend_limit limits).

(** Modelled from the spec: [checkAndReserve(owner, estimatedTokens,
    estimatedCost)], one atomic step on the counters. *)
Definition checkAndReserve (limits : UsageLimits) (clock : Clock) (owner : string)
    (estimatedTokens estimatedCost : Z) (c : Counters) : Decision * Counters :=
  let day := row (daily c) owner (today clock) in
  let month := row (monthly c) owner (this_month clock) in
  if headroom limits day month estimatedTokens estimatedCost then
    (Granted {| res_owner := owner; res_day := today clock;
                res_month := this_month clock;
                res_tokens := estimatedTokens; res_cost := estimatedCost |},
     {| daily := <[(owner, today clock) := add 1 estimatedTokens estimatedCost day]>
                   (daily c);
        monthly := <[(owner, this_month clock) :=
                       add 1 estimatedTokens estimatedCost month]> (monthly c) |})
  else (LimitExceeded, c).

(** Modelled from the spec: [reconcile(reservation, actualTokens, actualCost)]
    moves the counters of the reservation's periods from the estimate to the
    actual usage. *)
Definition reconcile (r : Reservation) (actualTokens actualCost : Z) (c : Counters)
  : Counters :=
  let adjust := add 0 (actualTokens - res_tokens r) (actualCost - res_cost r) in
  {| daily := <[(res_owner r, res_day r) :=
                  adjust (row (daily c) (res_owner r) (res_day r))]> (daily c);
     monthly := <[(res_owner r, res_month r) :=
                    adjust (row (monthly c) (res_owner r) (res_month r))]> (monthly c) |}.



Definition no_usage : Counters := {| daily := ∅; monthly := ∅ |}.

Definition sample_clock : Clock := {| today := "2025-07-14"; this_month := "2025-07" |}.

End UsageGuard.

(** ** frontend/src/app/api/services/status/route.ts *)

Module StatusRoute.

Definition missing_user_response : HttpResponse :=
  {| http_status := 400;
     http_body := JObj [("error", JStr "Missing user_id parameter")] |}.

Definition status_lookup_request (api_url : option string) (userId : string)
  : FetchRequest :=
  {| url := backendUrl api_url +:+ "/api/auth/users/" +:+ userId +:+ "/service-status";
     method := "GET";
     headers := json_headers;
     payload := None |}.

(** [errorText || errorMessage] *)
Definition text_or (text : string) (default : json) : json :=
  if String.eqb text "" then default else JStr text.

(** The inner [try]/[catch] that picks the error message of a non-ok answer:
    the [detail] of the JSON body, and when the body does not parse or is
    [null], whatever [response.text()] completes with at that point. *)
Definition errorMessage_of (response : FetchResponse) : completion json :=
  let default := JStr "Failed to get service status" in
  let from_text :=
    match text_body response with
    | Normal errorText => Normal (text_or errorText default)
    | Throw e => Throw e
    end in
  match json_body response with
  | Normal errorData =>
      match get errorData "detail" with
      | Normal detail => Normal (or_else detail default)
      | Throw _ => from_text
      end
  | Throw _ => from_text
  end.

(** The body of the outer [try] block; [user_id] is what
    [searchParams.get('user_id')] returned. *)
Definition GET_try (user_id : option string) (api_url : option string)
    (net : network) : Eff HttpResponse :=
  match user_id with
  | Some userId =>
      if String.eqb userId "" then
        lift (NextResponse_json (http_body missing_user_response) 400)
      else
        response ← fetch net (status_lookup_request api_url userId);
        if negb (ok response) then
          errorMessage ← lift (errorMessage_of response);
          lift (NextResponse_json (JObj [("error", errorMessage)]) (status response))
        else
          data ← lift (json_body response);
          lift (NextResponse_json data 200)
  | None => lift (NextResponse_json (http_body missing_user_response) 400)
  end.

(** [export async function GET(request)] *)
Definition GET (user_id : option string) (api_url : option string)
    (net : network) : Eff HttpResponse :=
  try_catch (GET_try user_id api_url net)
    (fun _ => lift (NextResponse_json
                      (http_body ConnectRoute.internal_error_response) 500)).

End StatusRoute.

(** ** The Pipedrive OAuth callback route (second handler of the connect
       route source) *)

Module CallbackRoute.

(** [NextResponse.redirect(new URL(target, request.url))]: the handler's
    answer is the reference it redirects to, relative to the request. *)
Definition redirect : Type := string.

Definition param_truthy (p : option string) : bool :=
  match p with
  | Some s => negb (String.eqb s "")
  | None => false
  end.

Definition callback_request (api_url : option string) (code state : string)
  : FetchRequest :=
  {| url := backendUrl api_url +:+ "/api/auth/callback/pipedrive?code=" +:+ code
            +:+ "&state=" +:+ state;
     method := "GET";
     headers := json_headers;
     payload := None |}.

Definition success_target : redirect :=
  "/dashboard?oauth_success=true&service=pipedrive".

Definition error_target (reason : string) : redirect :=
  "/dashboard?oauth_error=" +:+ reason.

(** The body of the [try] block. *)
Definition GET_try (code state : option string) (api_url : option string)
    (net : network) : Eff redirect :=
  match code, state with
  | Some c, Some s =>
      if negb (param_truthy code) || negb (param_truthy state) then
        mret (error_target "Missing authorization code")
      else
        response ← fetch net (callback_request api_url c s);
        if negb (ok response) then
          errorData ← lift (json_body response);
          detail ← lift (get errorData "detail");
          mret (error_target (to_string (or_else detail (JStr "Authentication failed"))))
        else
          data ← lift (json_body response);
          mret success_target
  | _, _ => mret (error_target "Missing authorization code")
  end.

(** [export async function GET(request)] *)
Definition GET (code state : option string) (api_url : option string)
    (net : network) : Eff redirect :=
  try_catch (GET_try code state api_url net)
    (fun _ => mret (error_target "Authentication failed")).

End CallbackRoute.

(** ** use-oauth.ts: [connectOAuth] *)

Module ConnectOAuth.
Import UseOAuth.

Definition connect_post (provider userId : string) : FetchRequest :=
  {| url := "/api/oauth/connect";
     method := "POST";
     headers := json_headers;
     payload := Some (JObj [("provider", JStr provider); ("user_id", JStr userId)]) |}.

(** What one call did: the hook state after its setters, the requests it
    sent, and the address it assigned to [window.location.href], if any. *)
Record Effects : Type := {
  state_after : HookState;
  requests : list FetchRequest;
  navigated : option string
}.

(** [connectOAuth(provider, userId)] called in a render whose [refreshStatus]
    closure saw [lastRefresh = seen]; [now] is what [Date.now()] returns if the
    call reaches [refreshStatus]. *)
Definition connectOAuth (seen : Z) (provider userId : string) (now : Z)
    (net : network) (st : HookState) : Effects :=
  let st := setError None (setLoading true st) in
  let finish (st : HookState) (sent : list FetchRequest) (nav : option string) :=
    {| state_after := setLoading false st; requests := sent; navigated := nav |} in
  let fail (err : thrown) (sent : list FetchRequest) :=
    finish (setError (Some (error_text err)) st) sent None in
  let rq := connect_post provider userId in
  match net rq with
  | Throw err => fail err [rq]
  | Normal response =>
      if negb (ok response) then
        match json_body response with
        | Throw err => fail err [rq]
        | Normal errorData =>
            match get errorData "error" with
            | Throw err => fail err [rq]
            | Normal e =>
                fail (new_Error (or_else e (JStr "Failed to connect OAuth provider")))
                  [rq]
            end
        end
      else
        match json_body response with
        | Throw err => fail err [rq]
        | Normal data =>
            match get data "oauth_url" with
            | Throw err => fail err [rq]
            | Normal oauth_url =>
                if truthy oauth_url then
                  finish st [rq] (Some (to_string (or_else oauth_url JNull)))
                else
                  let '(st', sent) := refreshStatus seen userId now net st in
                  finish st' (rq :: sent) None
            end
        end
  end.

End ConnectOAuth.

(** ** The NextAuth callbacks [jwt] and [session] *)

Module NextAuthCallbacks.
Import NextAuthRoute.

(** The token: its [id] member and its other claims. *)
Record JWT : Type := {
  jwt_id : value;
  jwt_claims : list (string * json)
}.

Record SessionUser : Type := {
  su_id : value;
  su_email : value;
  su_name : value;
  su_image : value
}.

Record Session : Type := {
  session_user : option SessionUser;
  session_expires : string
}.

(** [async jwt({ token, user })]; [user] is defined on sign-in only. *)
Definition jwt (token : JWT) (user : option User) : JWT :=
  match user with
  | Some u => {| jwt_id := user_id u; jwt_claims := jwt_claims token |}
  | None => token
  end.

(** [async session({ session, token })] *)
Definition session (s : Session) (token : option JWT) : Session :=
  match token, session_user s with
  | Some t, Some u =>
      {| session_user := Some {| su_id := jwt_id t; su_email := su_email u;
                                 su_name := su_name u; su_image := su_image u |};
         session_expires := session_expires s |}
  | _, _ => s
  end.

End NextAuthCallbacks.

(** ** Earlier revisions of the credentials provider *)

Module NextAuthHistory.
Import NextAuthRoute.

Definition plain_lookup_request (api_url : option string) (email : string)
  : FetchRequest :=
  {| url := template_env api_url +:+ "/api/auth/users/email/" +:+ email;
     method := "GET";
     headers := [];
     payload := None |}.

Definition backend_user (user : json) : Eff (option User) :=
  id ← lift (get user "id");
  mail ← lift (get user "email");
  name ← lift (get user "name");
  image ← lift (get user "image");
  mret (Some {| user_id := id; user_email := mail; user_name := name;
                user_image := image |}).

Definition temp_user (email : string) : User :=
  {| user_id := Some (JStr "temp-user-id");
     user_email := Some (JStr email);
     user_name := Some (JStr "User");
     user_image := Some JNull |}.

Definition guarded (credentials : option Credentials)
    (run : string -> Eff (option User)) : Eff (option User) :=
  match credentials with
  | Some c =>
      if negb (field_truthy (cred_email c)) || negb (field_truthy (cred_password c))
      then mret None
      else match cred_email c with
           | Some email => run email
           | None => mret None
           end
  | None => mret None
  end.

(** The strict revision: any failure refuses the sign-in. *)
Definition authorize_strict (api_url : option string) (net : network)
    (credentials : option Credentials) : Eff (option User) :=
  guarded credentials (fun email =>
    try_catch
      (response ← fetch net (plain_lookup_request api_url email);
       if ok response then
         user ← lift (json_body response);
         backend_user user
       else mret None)
      (fun _ => mret None)).

(** The revision with the temporary workaround: status 500 and thrown errors
    sign the user in as a temporary user. *)
Definition authorize_workaround (api_url : option string) (net : network)
    (credentials : option Credentials) : Eff (option User) :=
  guarded credentials (fun email =>
    try_catch
      (response ← fetch net (plain_lookup_request api_url email);
       if ok response then
         user ← lift (json_body response);
         backend_user user
       else if status response =? 500 then mret (Some (temp_user email))
       else mret None)
      (fun _ => mret (Some (temp_user email)))).

End NextAuthHistory.

(** ** frontend/src/lib/hooks/use-auth.ts *)

Module UseAuth.

(** The two [useState] cells of the hook. *)
Record AuthState : Type := {
  isLoading : bool;
  auth_error : option json
}.

(** What [signIn("credentials", {email, password, redirect: false})] was
    called with, and what it resolved to. *)
Record SignInCall : Type := { si_email : string; si_password : string }.

Record SignInResult : Type := { si_error : option string; si_ok : bool }.

Definition signIn_oracle : Type := SignInCall -> completion (option SignInResult).

(** What one call of a hook function did. *)
Record Outcome : Type := {
  returned : bool;
  state_after : AuthState;
  pushed : list string;
  sign_ins : list SignInCall;
  requests : list FetchRequest
}.

Definition error_truthy (r : option SignInResult) : bool :=
  match r with
  | Some r => match si_error r with
              | Some e => negb (String.eqb e "")
              | None => false
              end
  | None => false
  end.

Definition ok_truthy (r : option SignInResult) : bool :=
  match r with
  | Some r => si_ok r
  | None => false
  end.

(** [login(credentials)] *)
Definition login (signIn : signIn_oracle) (email password : string)
    (st : AuthState) : Outcome :=
  let c := {| si_email := email; si_password := password |} in
  let finish (ret : bool) (err : option json) (routes : list string) :=
    {| returned := ret;
       state_after := {| isLoading := false; auth_error := err |};
       pushed := routes; sign_ins := [c]; requests := [] |} in
  match signIn c with
  | Normal result =>
      if error_truthy result then finish false (Some (JStr "Invalid credentials")) []
      else if ok_truthy result then finish true None ["/dashboard"]
      else finish false None []
  | Throw _ => finish false (Some (JStr "An error occurred during login")) []
  end.

(** [SignUpData]: [name] is optional. *)
Record SignUpData : Type := { su_email : string; su_name : option string }.

(** [JSON.stringify(data)] leaves an undefined [name] out. *)
Definition signup_payload (data : SignUpData) : json :=
  JObj (("email", JStr (su_email data))
        :: match su_name data with
           | Some n => [("name", JStr n)]
           | None => []
           end).

Definition signup_request (api_url : option string) (data : SignUpData)
  : FetchRequest :=
  {| url := NextAuthRoute.template_env api_url +:+ "/api/auth/users";
     method := "POST";
     headers := json_headers;
     payload := Some (signup_payload data) |}.

(** [signup(data)] *)
Definition signup (api_url : option string) (net : network) (signIn : signIn_oracle)
    (data : SignUpData) (st : AuthState) : Outcome :=
  let rq := signup_request api_url data in
  let c := {| si_email := su_email data; si_password := "temp-password" |} in
  let finish (ret : bool) (err : option json) (routes : list string)
      (calls : list SignInCall) :=
    {| returned := ret;
       state_after := {| isLoading := false; auth_error := err |};
       pushed := routes; sign_ins := calls; requests := [rq] |} in
  let failed := Some (JStr "An error occurred during signup") in
  match net rq with
  | Throw _ => finish false failed [] []
  | Normal response =>
      if negb (ok response) then
        match json_body response with
        | Throw _ => finish false failed [] []
        | Normal errorData =>
            match get errorData "detail" with
            | Throw _ => finish false failed [] []
            | Normal detail =>
                finish false
                  (Some (or_else detail (JStr "Failed to create account"))) [] []
            end
        end
      else
        match signIn c with
        | Throw _ => finish false failed [] [c]
        | Normal loginResult =>
            if ok_truthy loginResult then finish true None ["/dashboard"] [c]
            else finish false None [] [c]
        end
  end.

(** [logout()]: [signOut] resolves or rejects. *)
Definition logout (signOut : completion unit) (st : AuthState) : Outcome :=
  match signOut with
  | Normal _ =>
      {| returned := true;
         state_after := {| isLoading := false; auth_error := auth_error st |};
         pushed := ["/"]; sign_ins := []; requests := [] |}
  | Throw _ =>
      {| returned := true;
         state_after := {| isLoading := false;
                           auth_error := Some (JStr "An error occurred during logout") |};
         pushed := []; sign_ins := []; requests := [] |}
  end.

(** [requireAuth(callback)]: the answer, the routes pushed, and whether the
    callback ran. [user] is [session?.user || null], [status] the session
    status. *)
Definition requireAuth (user_present : bool) (status : string) (has_callback : bool)
  : bool * list string * bool :=
  let isAuthenticated := user_present in
  let isAuthLoading := String.eqb status "loading" in
  if negb isAuthenticated && negb isAuthLoading then (false, ["/auth/signin"], false)
  else (true, [], has_callback && isAuthenticated).

End UseAuth.

(** ** project_overview.md: structured logging *)

Module Logging.

(** The Python values a log entry is made of; a dictionary keeps the order of
    its items and its keys are strings. *)
Inductive pyval : Type :=
| PNone
| PBool (b : bool)
| PInt (n : Z)
| PStr (s : string)
| PList (items : list pyval)
| PDict (items : list (string * pyval)).

(** [str.lower] on the letters A to Z. *)
Definition lower_char (c : Ascii.ascii) : Ascii.ascii :=
  let n := Ascii.nat_of_ascii c in
  if (65 <=? n)%nat && (n <=? 90)%nat then Ascii.ascii_of_nat (n + 32) else c.

Fixpoint lower (s : string) : string :=
  match s with
  | EmptyString => EmptyString
  | String c rest => String (lower_char c) (lower rest)
  end.

Definition sensitive_keys : list string :=
  ["access_token"; "api_key"; "email_content"; "password"].

(** [key.lower() in sensitive_keys] *)
Definition is_sensitive (key : string) : bool :=
  existsb (String.eqb (lower key)) sensitive_keys.

Definition REDACTED : pyval := PStr "[REDACTED]".

(** What [sanitize_log_data] stores under a key: the marker for a sensitive
    key, the sanitized dictionary for a dictionary, the value itself
    otherwise. *)
Fixpoint sanitize_value (v : pyval) : pyval :=
  match v with
  | PDict items =>
      PDict (List.map
               (fun item =>
                  match item with
                  | (key, value) =>
                      (key, if is_sensitive key then REDACTED else sanitize_value value)
                  end) items)
  | _ => v
  end.

(** [def sanitize_log_data(data: dict) -> dict] *)
Definition sanitize_log_data (data : list (string * pyval)) : list (string * pyval) :=
  List.map (fun item => (item.1, if is_sensitive item.1 then REDACTED
                                 else sanitize_value item.2)) data.

(** The [log_entry] that [log_event] serialises. *)
Definition log_entry (timestamp user_id event_type level : string)
    (data : list (string * pyval)) : pyval :=
  PDict [("timestamp", PStr timestamp); ("user_id", PStr user_id);
         ("event_type", PStr event_type); ("level", PStr level);
         ("data", PDict (sanitize_log_data data))].

(** Somewhere below [v], following dictionary values only, a sensitive key
    holds something else than the marker. *)
Fixpoint exposed (v : pyval) : bool :=
  match v with
  | PDict items =>
      existsb
        (fun item =>
           match item with
           | (key, value) =>
               if is_sensitive key then
                 match value with
                 | PStr s => negb (String.eqb s "[REDACTED]")
                 | _ => true
                 end
               else exposed value
           end) items
  | _ => false
  end.

End Logging.

(** ** project_overview.md: usage tracking around an AI call *)

Module AiUsage.
Import Pipeline.

(** The calls [process_with_ai] and [AIAnalyzer.analyze_email] make, with
    their arguments. *)
Inductive AiCall : Type :=
| CheckLimitsCall (user_id : string)
| ProcessCall (content : string)
| TrackUsageCall (user_id : string) (tokens : Z) (cost : Q)
| GetAiClientCall (user_id : string)
| CheckSpendLimitCall (user_id : string) (estimated_cost : Q)
| AnalyzeContentCall (content prompt : string) (max_tokens : Z).

Section WithMonitor.

Context {Ext AIResult AIClient AIResponse : Type}.

(** [usage_monitor], [ai_client] and the helpers of [AIAnalyzer], each a
    function of the state [Ext] of the outside world. *)
Record Monitor : Type := {
  check_limits : string -> Ext -> result unit * Ext;
  process : string -> Ext -> result AIResult * Ext;
  track_usage : string -> Z -> Q -> Ext -> result unit * Ext;
  result_tokens : AIResult -> Z;
  result_cost : AIResult -> Q;
  get_ai_client : string -> Ext -> result AIClient * Ext;
  client_model : AIClient -> string;
  estimate_tokens : string -> Z;
  estimate_cost : Z -> string -> Q;
  check_spend_limit : string -> Q -> Ext -> result unit * Ext;
  analyze_content : AIClient -> string -> string -> Z -> Ext -> result AIResponse * Ext;
  from_ai_response : AIResponse -> result EmailAnalysis;
  analysis_prompt : string
}.

Variable mon : Monitor.

(** [async def process_with_ai(user_id, content)] *)
Definition process_with_ai (user_id content : string) (x : Ext)
  : result AIResult * Ext * list AiCall :=
  match check_limits mon user_id x with
  | (Raise e, x1) => (Raise e, x1, [CheckLimitsCall user_id])
  | (Return _, x1) =>
      match process mon content x1 with
      | (Raise e, x2) => (Raise e, x2, [CheckLimitsCall user_id; ProcessCall content])
      | (Return r, x2) =>
          let tracked :=
            TrackUsageCall user_id (result_tokens mon r) (result_cost mon r) in
          match track_usage mon user_id (result_tokens mon r) (result_cost mon r) x2 with
          | (Raise e, x3) =>
              (Raise e, x3, [CheckLimitsCall user_id; ProcessCall content; tracked])
          | (Return _, x3) =>
              (Return r, x3, [CheckLimitsCall user_id; ProcessCall content; tracked])
          end
      end
  end.

(** [AIAnalyzer.analyze_email(user_id, email_content)] *)
Definition analyze_email (user_id email_content : string) (x : Ext)
  : result EmailAnalysis * Ext * list AiCall :=
  match get_ai_client mon user_id x with
  | (Raise e, x1) => (Raise e, x1, [GetAiClientCall user_id])
  | (Return ai_client, x1) =>
      let estimated_tokens := estimate_tokens mon email_content in
      let estimated_cost := estimate_cost mon estimated_tokens (client_model mon ai_client) in
      let checked := CheckSpendLimitCall user_id estimated_cost in
      match check_spend_limit mon user_id estimated_cost x1 with
      | (Raise e, x2) => (Raise e, x2, [GetAiClientCall user_id; checked])
      | (Return _, x2) =>
          let requested :=
            AnalyzeContentCall email_content (analysis_prompt mon) 500 in
          match analyze_content mon ai_client email_content (analysis_prompt mon) 500 x2 with
          | (Raise e, x3) =>
              (Raise e, x3, [GetAiClientCall user_id; checked; requested])
          | (Return response, x3) =>
              (from_ai_response mon response, x3,
               [GetAiClientCall user_id; checked; requested])
          end
      end
  end.

End WithMonitor.

Arguments Monitor : clear implicits.

Definition is_ai_request (c : AiCall) : bool :=
  match c with
  | ProcessCall _ => true
  | AnalyzeContentCall _ _ _ => true
  | _ => false
  end.

Definition is_tracking (c : AiCall) : bool :=
  match c with
  | TrackUsageCall _ _ _ => true
  | _ => false
  end.

End AiUsage.

(** ** project_overview.md: [WebSocketManager.connect] *)

Module Sockets.
Import Pipeline.

Section WithAccept.

Context {Ext WebSocket : Type}.

(** [await websocket.accept()] *)
Variable accept : WebSocket -> Ext -> result unit * Ext.

(** [async def connect(self, websocket, user_id)] *)
Definition connect (websocket : WebSocket) (user_id : string)
  : State Ext WebSocket -> result unit * State Ext WebSocket * list Event :=
  fun st =>
    match accept websocket (ext st) with
    | (Return _, x) =>
        (Return tt,
         set_connections (<[user_id := websocket]> (active_connections st))
           (set_ext x st), [])
    | (Raise e, x) => (Raise e, set_ext x st, [])
    end.

End WithAccept.

End Sockets.

(** ** Further stub set-ups *)

Module Samples.
Import Pipeline AiUsage.

(** The stub collaborators with a web socket that fails to send. *)
Definition broken_socket_services
  : Services (list string) unit unit unit string unit :=
  let base := stub_services sample_stub in
  {| Pipeline.check_limits := Pipeline.check_limits base;
     get_outlook_client := get_outlook_client base;
     get_email_content := get_email_content base;
     Pipeline.get_ai_client := Pipeline.get_ai_client base;
     Pipeline.analyze_email := Pipeline.analyze_email base;
     get_pipedrive_client := get_pipedrive_client base;
     search_deals := search_deals base;
     create_deal := create_deal base;
     db_commit := db_commit base;
     Pipeline.track_usage := Pipeline.track_usage base;
     send_text := fun _ _ crm => (Raise timeout_error, crm);
     hash_subject := hash_subject base |}.

Definition connected_state : State (list string) unit :=
  {| ext := []; email_analysis_logs := []; logger_errors := [];
     active_connections := {[ "user123" := tt ]}; email_content := None |}.

Definition no_message_webhook : gmap string string := {[ "subject" := "Renewal" ]}.

(** A usage monitor over a token counter: the limit check fails above 1000
    tokens, the AI call costs 150 tokens, tracking adds them. *)
Definition counting_monitor : Monitor Z Z unit EmailAnalysis :=
  {| AiUsage.check_limits := fun _ used =>
       (if 1000 <? used then Raise limit_error else Return tt, used);
     process := fun _ used => (Return 150, used);
     AiUsage.track_usage := fun _ tokens _ used => (Return tt, used + tokens);
     result_tokens := fun r => r;
     result_cost := fun _ => 0%Q;
     AiUsage.get_ai_client := fun _ used => (Return tt, used);
     client_model := fun _ => "gpt-4";
     estimate_tokens := fun content => Z.of_nat (String.length content);
     estimate_cost := fun tokens _ => inject_Z tokens;
     check_spend_limit := fun _ _ used =>
       (if 1000 <? used then Raise limit_error else Return tt, used);
     analyze_content := fun _ _ _ _ used => (Return sample_analysis, used);
     from_ai_response := fun a => Return a;
     analysis_prompt := "Analyze this email for sales opportunities." |}.

End Samples.

(* ================================================================== *)
(** * Properties *)
(* ================================================================== *)

(** ** The OAuth connect handler *)

Section ConnectRouteFacts.
Import ConnectRoute.

Lemma NextResponse_json_400 (data : json) :
  NextResponse_json data 400 = Normal {| http_status := 400; http_body := data |}.
Proof. reflexivity. Qed.

(** The handler always completes normally: whatever is thrown inside the
    [try] block becomes the 500 response. *)
Lemma POST_never_throws (request_json : completion json) (api_url : option string)
    (net : network) :
  exists r, fst (POST request_json api_url net) = Normal r.
Proof.
  unfold POST, try_catch.
  destruct (POST_try request_json api_url net) as [[r|e] sent]; simpl; eauto.
Qed.

(** With both members truthy the handler calls the backend exactly once. *)
Lemma POST_forwards (body : json) (api_url : option string) (net : network) :
  lacks_fields body = false ->
  exists provider user_id,
    get body "provider" = Normal (Some provider) /\
    get body "user_id" = Normal (Some user_id) /\
    snd (POST (Normal body) api_url net) = [connect_request api_url provider user_id].
Proof.
  unfold lacks_fields. intros H.
  destruct body; simpl in H; try discriminate.
  destruct (member "provider" fields) as [p|] eqn:Hp; [|discriminate].
  destruct (member "user_id" fields) as [u|] eqn:Hu;
    [|rewrite orb_true_r in H; discriminate].
  exists p, u. simpl. rewrite Hp, Hu. repeat split.
  unfold POST, POST_try, try_catch, mbind, Eff_bind, bind, lift, fetch; simpl.
  rewrite Hp, Hu. simpl in H. rewrite H.
  destruct (net _) as [resp|e]; simpl; [|reflexivity].
  destruct (ok resp); simpl.
  - destruct (json_body resp); simpl; reflexivity.
  - destruct (json_body resp) as [ed|e]; simpl; [|reflexivity].
    destruct (get ed "detail"); simpl; [|reflexivity].
    destruct (NextResponse_json _ _); reflexivity.
Qed.

(** Without a truthy [provider] or [user_id] in a parsed, non-null body the
    handler answers 400 and sends nothing. *)
Lemma POST_rejects (body : json) (api_url : option string) (net : network) :
  body <> JNull ->
  lacks_fields body = true ->
  POST (Normal body) api_url net = (Normal missing_fields_response, []).
Proof.
  unfold lacks_fields. intros Hn H.
  destruct body; try congruence; try reflexivity.
  simpl in H.
  unfold POST, POST_try, try_catch, mbind, Eff_bind, bind, lift; simpl.
  destruct (member "provider" fields) as [p|]; [|reflexivity].
  destruct (member "user_id" fields) as [u|]; [|reflexivity].
  simpl in H. rewrite H. reflexivity.
Qed.

(** C10, as stated, fails: with both members truthy and a backend that answers
    400 with detail "Missing provider or user_id", the handler returns the very
    same 400 response although the request was forwarded. *)
Lemma POST_relays_backend_400 :
  let body := JObj [("provider", JStr "pipedrive"); ("user_id", JStr "user-1")] in
  let net : network := fun _ =>
    Normal {| status := 400;
              json_body := Normal (JObj [("detail", JStr "Missing provider or user_id")]);
              text_body := Normal "" |} in
  ~ (fst (POST (Normal body) None net) = Normal missing_fields_response
     <-> lacks_fields body = true)
  /\ snd (POST (Normal body) None net) <> [].
Proof.
  split.
  - intros [H _]. specialize (H eq_refl). discriminate H.
  - discriminate.
Qed.

(** C10 (amended): for a parsed body other than [null], the handler answers
    400 with [{error: 'Missing provider or user_id'}] without calling the
    backend if and only if the body lacks a truthy [provider] or [user_id];
    with both truthy it forwards exactly one request carrying the two members. *)
Theorem POST_missing_fields_iff (body : json) (api_url : option string)
    (net : network) :
  body <> JNull ->
  (POST (Normal body) api_url net = (Normal missing_fields_response, [])
   <-> lacks_fields body = true)
  /\ (lacks_fields body = false ->
      exists provider user_id,
        get body "provider" = Normal (Some provider) /\
        get body "user_id" = Normal (Some user_id) /\
        snd (POST (Normal body) api_url net)
        = [connect_request api_url provider user_id]).
Proof.
  intros Hn. split; [split|].
  - intros H. destruct (lacks_fields body) eqn:E; [reflexivity|].
    destruct (POST_forwards body api_url net E) as (p & u & _ & _ & Hs).
    rewrite H in Hs. discriminate Hs.
  - apply POST_rejects; assumption.
  - apply POST_forwards.
Qed.

Lemma POST_missing_fields_iff_witness :
  JObj [("provider", JStr "outlook")] <> JNull /\
  POST (Normal (JObj [("provider", JStr "outlook")])) None (fun _ => Throw (TypeError_null "x"))
  = (Normal missing_fields_response, []).
Proof.
  split; [discriminate|].
  apply (POST_missing_fields_iff (JObj [("provider", JStr "outlook")]) None
           (fun _ => Throw (TypeError_null "x"))); [discriminate|reflexivity].
Defined.

(** A body that parses to [null] is answered 500, not 400: destructuring
    throws inside the [try] block. *)
Example POST_null_body (api_url : option string) (net : network) :
  POST (Normal JNull) api_url net = (Normal internal_error_response, []).
Proof. reflexivity. Qed.

End ConnectRouteFacts.

(** ** The NextAuth credentials provider *)

Section NextAuthFacts.
Import NextAuthRoute.

Lemma field_truthy_nonempty (s : string) :
  s <> "" -> field_truthy (Some s) = true.
Proof.
  intros H. simpl. destruct (String.eqb_spec s ""); [contradiction|reflexivity].
Qed.

(** With both fields non-empty the guard is passed and the [try] block runs. *)
Lemma authorize_unfold (api_url : option string) (net : network) (e p : string) :
  e <> "" -> p <> "" ->
  authorize api_url net (Some {| cred_email := Some e; cred_password := Some p |})
  = try_catch (authorize_try api_url net e)
      (fun _ => mret (Some (fallback_user e))).
Proof.
  intros He Hp. unfold authorize. cbn [cred_email cred_password].
  rewrite (field_truthy_nonempty e He), (field_truthy_nonempty p Hp).
  reflexivity.
Qed.


Example email_prefix_sample : email_prefix "ann@example.com" = "ann".
Proof. reflexivity. Qed.

(** A non-ok answer or a rejected [fetch] ends in the fallback user. *)
Lemma authorize_try_fallback (api_url : option string) (net : network) (e : string) :
  (forall resp, net (user_lookup_request api_url e) = Normal resp -> ok resp = false) ->
  fst (try_catch (authorize_try api_url net e)
         (fun _ => mret (Some (fallback_user e))))
  = Normal (Some (fallback_user e)).
Proof.
  intros H.
  unfold try_catch, authorize_try, mbind, Eff_bind, bind, lift, fetch, mret, Eff_ret.
  destruct (net _) as [resp|t]; [|reflexivity].
  rewrite (H resp eq_refl).
  destruct (text_body resp); reflexivity.
Qed.



Example authorize_fallback_sample :
  fst (authorize None (fun _ => Throw (TypeError_null "x"))
         (Some {| cred_email := Some "ann@example.com";
                  cred_password := Some "wrong" |}))
  = Normal (Some {| user_id := Some (JStr "user-ann@example.com");
                    user_email := Some (JStr "ann@example.com");
                    user_name := Some (JStr "ann");
                    user_image := Some JNull |}).
Proof. reflexivity. Qed.

End NextAuthFacts.

(** ** The [useOAuth] hook *)

Section UseOAuthFacts.
Import UseOAuth.

(** The debounce: a call that begins less than 2000 ms after the [lastRefresh]
    its closure saw changes nothing and sends nothing. *)
Lemma refreshStatus_early_return (seen : Z) (userId : string) (now : Z)
    (net : network) (st : HookState) :
  now - seen < 2000 -> refreshStatus seen userId now net st = (st, []).
Proof.
  intros H. unfold refreshStatus.
  destruct (Z.ltb_spec (now - seen) 2000); [reflexivity|lia].
Qed.

(** A call that passes the debounce stores its own start time and sends the
    status request, once. *)
Lemma refreshStatus_passes (seen : Z) (userId : string) (now : Z)
    (net : network) (st : HookState) :
  2000 <= now - seen ->
  lastRefresh (fst (refreshStatus seen userId now net st)) = now /\
  loading (fst (refreshStatus seen userId now net st)) = false /\
  snd (refreshStatus seen userId now net st) = [status_request userId].
Proof.
  intros H. unfold refreshStatus.
  destruct (Z.ltb_spec (now - seen) 2000); [lia|].
  unfold refreshStatus_try, mbind, Eff_bind, bind, lift, fetch.
  destruct (net _) as [resp|t]; simpl; [|auto].
  destruct (negb (ok resp)); simpl.
  - destruct (json_body resp) as [ed|t]; simpl; [|auto].
    destruct (get ed "error"); simpl; auto.
  - destruct (json_body resp); simpl; auto.
Qed.

(** C9, as stated, fails: call A at 1700000000000 passes the debounce, call B
    1500 ms later is dropped and leaves [lastRefresh] at A's time, and call C,
    only 1000 ms after B, is 2500 ms after A: it sends a request and changes
    the state. *)
Lemma refreshStatus_second_of_pair_fetches :
  let net : network := fun _ =>
    Normal {| status := 200;
              json_body := Normal (JObj [("outlook", JBool true)]);
              text_body := Normal "" |} in
  let stA := fst (call initial "u1" 1700000000000 net) in
  let stB := fst (call stA "u1" (1700000000000 + 1500) net) in
  let tB := 1700000000000 + 1500 in
  let tC := 1700000000000 + 2500 in
  tC - tB < 2000 /\
  snd (call stB "u1" tC net) = [status_request "u1"] /\
  lastRefresh (fst (call stB "u1" tC net)) <> lastRefresh stB.
Proof.
  cbv zeta. split; [lia|]. split; [reflexivity|].
  vm_compute. discriminate.
Qed.

(** The same closure called twice without a render in between sees the old
    [lastRefresh] both times, so both calls pass. *)
Example refreshStatus_stale_closure :
  let net : network := fun _ => Throw (TypeError_null "x") in
  let st1 := fst (refreshStatus 0 "u1" 1700000000000 net initial) in
  snd (refreshStatus 0 "u1" 1700000000001 net st1) = [status_request "u1"].
Proof. reflexivity. Qed.

(** C9 (amended): when a call passes the debounce at time [t1] and the next
    call, made through the closure of the following render, begins at [t2]
    less than 2000 ms after [t1], that second call sends no request and leaves
    [serviceStatus], [loading], [error] and [lastRefresh] as they were. *)
Theorem refreshStatus_debounce (st : HookState) (u1 u2 : string) (t1 t2 : Z)
    (net1 net2 : network) :
  2000 <= t1 - lastRefresh st ->
  t2 - t1 < 2000 ->
  let st1 := fst (call st u1 t1 net1) in
  lastRefresh st1 = t1 /\ call st1 u2 t2 net2 = (st1, []).
Proof.
  intros H1 H2 st1.
  assert (Hl : lastRefresh st1 = t1).
  { subst st1. unfold call.
    apply (refreshStatus_passes (lastRefresh st) u1 t1 net1 st H1). }
  split; [exact Hl|].
  unfold call. apply refreshStatus_early_return. rewrite Hl. exact H2.
Qed.

Lemma refreshStatus_debounce_witness :
  2000 <= 1700000000000 - lastRefresh initial /\
  1700000000500 - 1700000000000 < 2000 /\
  call (fst (call initial "u1" 1700000000000 (fun _ => Throw (TypeError_null "x"))))
    "u1" 1700000000500 (fun _ => Throw (TypeError_null "x"))
  = (fst (call initial "u1" 1700000000000 (fun _ => Throw (TypeError_null "x"))), []).
Proof.
  split; [simpl; lia|split; [lia|]].
  apply (refreshStatus_debounce initial "u1" "u1" 1700000000000 1700000000500
           (fun _ => Throw (TypeError_null "x"))
           (fun _ => Throw (TypeError_null "x"))); simpl; lia.
Defined.

End UseOAuthFacts.

(** ** The email pipeline *)

Section PipelineFacts.
Import Pipeline.

Example stub_run_once :
  let '(r, st, evs) :=
    process_email_webhook (stub_services sample_stub) sample_webhook "user123"
      empty_state in
  r = Return tt /\ length (email_analysis_logs st) = 1%nat /\
  ext st = ["renewal contract - AI Generated"] /\
  email_content st = None /\
  List.map capability evs =
    [CheckLimits; GetOutlookClient; GetEmailContent; GetAIClient; AnalyzeEmail;
     GetPipedriveClient; SearchDeals; CreateDeal; DbCommit; TrackUsage].
Proof. vm_compute. repeat split. Qed.

Lemma is_empty_length {A : Type} (l : list A) :
  is_empty l = true <-> length l = 0%nat.
Proof. destruct l; simpl; split; congruence. Qed.

Context {Ext OutlookClient AIClient PipedriveClient Deal WebSocket : Type}.
Variable svc : Services Ext OutlookClient AIClient PipedriveClient Deal WebSocket.

Ltac unfold_pipeline :=
  unfold process_email_webhook, process_email_webhook_try, try_except_finally,
    log_email_analysis, send_update, disconnect, subscript, call, modify, raise,
    mbind, M_mbind, M_bind, mret, M_ret.

(** One goal per path through the pipeline: every call of a collaborator is
    split into the case where it returns and the case where it raises. *)
Ltac split_run :=
  repeat match goal with
    | |- context [match ?f svc ?a ?b ?c ?x with _ => _ end] =>
        destruct (f svc a b c x) as [[?|?] ?] eqn:?; cbn
    | |- context [match ?f svc ?a ?b ?x with _ => _ end] =>
        destruct (f svc a b x) as [[?|?] ?] eqn:?; cbn
    | |- context [match ?f svc ?a ?x with _ => _ end] =>
        destruct (f svc a x) as [[?|?] ?] eqn:?; cbn
    | |- context [match ?f svc ?x with _ => _ end] =>
        destruct (f svc x) as [[?|?] ?] eqn:?; cbn
    | |- context [match ?d !! ?k with _ => _ end] => destruct (d !! k) eqn:?; cbn
    | |- context [if ?b then _ else _] => destruct b eqn:?; cbn
    end.

Ltac run_paths wd uid st :=
  let Hrun := fresh "Hrun" in
  destruct (process_email_webhook svc wd uid st) as [[? ?] ?] eqn:Hrun;
  revert Hrun; unfold_pipeline; cbn; split_run; intros [= <- <- <-].

(** The first call of every run is [check_limits]. *)
Lemma run_starts_with_check (wd : gmap string string) (uid : string)
    (st : State Ext WebSocket) :
  exists o rest,
    (process_email_webhook svc wd uid st).2 = Called CheckLimits o :: rest.
Proof. run_paths wd uid st; cbn; eauto. Qed.

(** A run calls [create_deal] at most once. *)
Lemma run_creates_at_most_once (wd : gmap string string) (uid : string)
    (st : State Ext WebSocket) :
  (calls_of CreateDeal (process_email_webhook svc wd uid st).2 <= 1)%nat.
Proof. run_paths wd uid st; cbn; lia. Qed.

(** The log table after a run: either one row was appended, built by
    [log_data] from the analysis the AI client returned, or the table is as it
    was; a row is appended exactly when the commit returned. *)
Lemma run_log_shape (wd : gmap string string) (uid : string)
    (st : State Ext WebSocket) :
  let '(r, st', evs) := process_email_webhook svc wd uid st in
  (outcome_of DbCommit evs = Some Returned /\
   exists a, outcome_of AnalyzeEmail evs = Some (Analysis a) /\
             email_analysis_logs st'
             = email_analysis_logs st ++ [log_data svc uid a (created evs)])
  \/ (outcome_of DbCommit evs <> Some Returned /\
      email_analysis_logs st' = email_analysis_logs st).
Proof.
  run_paths wd uid st; cbn.
  all: first [ right; split; [discriminate|reflexivity]
             | left; split; [reflexivity|]; eexists; split; reflexivity ].
Qed.

(** A run that returns has committed its row. *)
Lemma run_success_commits (wd : gmap string string) (uid : string)
    (st : State Ext WebSocket) :
  let '(r, st', evs) := process_email_webhook svc wd uid st in
  r = Return tt -> outcome_of DbCommit evs = Some Returned.
Proof. run_paths wd uid st; cbn; intros H; first [discriminate H|reflexivity]. Qed.

(** The working buffer is [None] after every run. *)
Lemma run_clears_buffer (wd : gmap string string) (uid : string)
    (st : State Ext WebSocket) :
  email_content (process_email_webhook svc wd uid st).1.2 = None.
Proof. run_paths wd uid st; reflexivity. Qed.


(** C6, as stated, fails: an analysis that flags a sales opportunity with
    confidence 0, which is above no threshold between 0 and 1, still gets its
    deal created when the search finds nothing. *)
Lemma low_confidence_deal_is_created :
  let '(r, st, evs) :=
    process_email_webhook (stub_services sample_stub) sample_webhook "user123"
      empty_state in
  calls_of CreateDeal evs = 1%nat /\
  ext st = [deal_title sample_analysis] /\
  forall threshold : Q, (0 <= threshold)%Q ->
    ~ (threshold < confidence sample_analysis)%Q.
Proof.
  vm_compute process_email_webhook. cbn. repeat split.
  intros threshold H. apply Qle_not_lt. exact H.
Qed.

(** C6 (amended): a run calls [create_deal], and then exactly once, if and
    only if the AI client returned an analysis that flags a sales opportunity
    and [search_deals] returned no existing deal; the confidence is not
    consulted. *)
Theorem create_deal_iff_opportunity_and_no_match (wd : gmap string string)
    (uid : string) (st : State Ext WebSocket) :
  let '(r, st', evs) := process_email_webhook svc wd uid st in
  (calls_of CreateDeal evs <= 1)%nat /\
  (calls_of CreateDeal evs = 1%nat <->
   exists a, outcome_of AnalyzeEmail evs = Some (Analysis a) /\
             is_sales_opportunity a = true /\
             outcome_of SearchDeals evs = Some (Deals 0)).
Proof.
  run_paths wd uid st.
  all: split; [cbn; lia|].
  all: split;
    [ intros H; cbn in H; try discriminate H
    | intros (a' & Ha & Hs & Hd); cbn in Ha, Hd; simplify_eq ].
  all: try reflexivity.
  all: try match goal with
         | H : _ && _ = true |- _ =>
             apply andb_prop in H as [? ?%is_empty_length];
             eexists; cbn; repeat split; [eassumption|congruence]
         end.
  all: match goal with
       | H : _ && _ = false, H1 : is_sales_opportunity _ = true,
         H2 : length _ = 0%nat |- _ =>
           apply is_empty_length in H2; rewrite H1, H2 in H; discriminate H
       end.
Qed.

(** C1, as stated, fails: the same webhook submitted again after the first
    run has returned is processed again from [check_limits] on and writes a
    second row. *)
Lemma resubmission_writes_second_record :
  let '(r1, st1, evs1) :=
    process_email_webhook (stub_services sample_stub) sample_webhook "user123"
      empty_state in
  let '(r2, st2, evs2) :=
    process_email_webhook (stub_services sample_stub) sample_webhook "user123"
      st1 in
  r1 = Return tt /\ r2 = Return tt /\
  length (email_analysis_logs st2) = 2%nat /\
  length (email_analysis_logs st2) <> 1%nat /\
  outcome_of AnalyzeEmail evs2 = Some (Analysis sample_analysis).
Proof. vm_compute. repeat split. discriminate. Qed.

(** C1 (amended): every submission that returns appends exactly one row to
    the log table and calls [create_deal] at most once; nothing is keyed on the
    message, so a second submission of the same webhook starts again with
    [check_limits] and, when it returns, has appended a second row. *)
Theorem each_completed_submission_logs_once (wd : gmap string string)
    (uid : string) (st : State Ext WebSocket) :
  let '(r1, st1, evs1) := process_email_webhook svc wd uid st in
  let '(r2, st2, evs2) := process_email_webhook svc wd uid st1 in
  (r1 = Return tt ->
   exists l1, email_analysis_logs st1 = email_analysis_logs st ++ [l1])
  /\ (r1 = Return tt -> r2 = Return tt ->
      exists l1 l2, email_analysis_logs st2 = email_analysis_logs st ++ [l1; l2])
  /\ (calls_of CreateDeal evs1 <= 1)%nat
  /\ (calls_of CreateDeal evs2 <= 1)%nat
  /\ (exists o rest, evs2 = Called CheckLimits o :: rest).
Proof.
  pose proof (run_log_shape wd uid st) as L1.
  pose proof (run_success_commits wd uid st) as S1.
  pose proof (run_creates_at_most_once wd uid st) as C1.
  destruct (process_email_webhook svc wd uid st) as [[r1 st1] evs1].
  pose proof (run_log_shape wd uid st1) as L2.
  pose proof (run_success_commits wd uid st1) as S2.
  pose proof (run_creates_at_most_once wd uid st1) as C2.
  pose proof (run_starts_with_check wd uid st1) as F2.
  destruct (process_email_webhook svc wd uid st1) as [[r2 st2] evs2].
  cbn in C1, C2, F2.
  assert (A1 : r1 = Return tt ->
               exists l1, email_analysis_logs st1 = email_analysis_logs st ++ [l1]).
  { intros Hr. destruct L1 as [(_ & a & _ & E)|(N & _)]; [eauto|].
    destruct (N (S1 Hr)). }
  repeat split; try assumption.
  intros Hr1 Hr2. destruct (A1 Hr1) as [l1 E1].
  destruct L2 as [(_ & a & _ & E)|(N & _)]; [|destruct (N (S2 Hr2))].
  exists l1, (log_data svc uid a (created evs2)).
  rewrite E, E1, <- app_assoc. reflexivity.
Qed.



(** C2, as stated, fails: the row stores the AI client's [safe_summary] and
    keywords as they come, so when the summary repeats the mail, the fetched
    content is a substring of a persisted member. *)
Lemma ai_summary_echo_is_persisted :
  let '(r, st, evs) :=
    process_email_webhook (stub_services sample_stub) sample_webhook "user123"
      empty_state in
  stub_content sample_stub = Return "Please send a quote" /\
  r = Return tt /\
  existsb (retains "Please send a quote") (email_analysis_logs st) = true.
Proof. vm_compute. repeat split. Qed.

(** C2 (amended): after every run, however it ends, the working buffer is
    [None]; the only row a run can append is [log_data] of the analysis the AI
    client returned, whose text members are the user id, the sender domain,
    the hash of the subject, the AI summary and the AI keywords; and
    [log_email_analysis] handed a content raises ValueError and writes
    nothing. *)
Theorem content_buffer_never_logged (wd : gmap string string) (uid : string)
    (st : State Ext WebSocket) :
  let '(r, st', evs) := process_email_webhook svc wd uid st in
  email_content st' = None
  /\ (email_analysis_logs st' = email_analysis_logs st
      \/ exists a, outcome_of AnalyzeEmail evs = Some (Analysis a) /\
                   email_analysis_logs st'
                   = email_analysis_logs st ++ [log_data svc uid a (created evs)] /\
                   text_fields (log_data svc uid a (created evs))
                   = [uid; sender_domain a; hash_subject svc (subject a);
                      safe_summary a] ++ keywords a)
  /\ (forall a dc c st0,
        log_email_analysis svc uid a dc (Some c) st0
        = (Raise (ValueError "Email content must never be stored"), st0, [])).
Proof.
  pose proof (run_log_shape wd uid st) as L.
  pose proof (run_clears_buffer wd uid st) as B.
  destruct (process_email_webhook svc wd uid st) as [[r st'] evs].
  cbn in B. split; [exact B|]. split; [|reflexivity].
  destruct L as [(_ & a & Ha & E)|(_ & E)]; [right|left; exact E].
  exists a. repeat split; assumption.
Qed.

End PipelineFacts.

Section PipelineRuns.
Import Pipeline.


Lemma create_deal_iff_opportunity_and_no_match_witness :
  calls_of CreateDeal
    (process_email_webhook (stub_services sample_stub) sample_webhook "user123"
       empty_state).2 = 1%nat.
Proof.
  pose proof (create_deal_iff_opportunity_and_no_match (stub_services sample_stub)
                sample_webhook "user123" empty_state) as H.
  destruct (process_email_webhook (stub_services sample_stub) sample_webhook
              "user123" empty_state) as [[r st'] evs] eqn:E.
  apply H. exists sample_analysis.
  vm_compute in E. injection E as <- <- <-. repeat split.
Defined.

Lemma each_completed_submission_logs_once_witness :
  exists l1 l2,
    email_analysis_logs
      (process_email_webhook (stub_services sample_stub) sample_webhook "user123"
         (process_email_webhook (stub_services sample_stub) sample_webhook
            "user123" empty_state).1.2).1.2
    = email_analysis_logs empty_state ++ [l1; l2].
Proof.
  pose proof (each_completed_submission_logs_once (stub_services sample_stub)
                sample_webhook "user123" empty_state) as H.
  destruct (process_email_webhook (stub_services sample_stub) sample_webhook
              "user123" empty_state) as [[r1 st1] evs1] eqn:E1.
  cbn [fst snd].
  destruct (process_email_webhook (stub_services sample_stub) sample_webhook
              "user123" st1) as [[r2 st2] evs2] eqn:E2.
  cbn [fst snd].
  destruct H as (_ & H & _).
  apply H.
  - vm_compute in E1. injection E1 as <- _ _. reflexivity.
  - vm_compute in E1. injection E1 as _ <- _.
    vm_compute in E2. injection E2 as <- _ _. reflexivity.
Defined.


End PipelineRuns.

(** ** The usage guard *)

Section UsageGuardFacts.
Import UsageGuard.






(** The example of the specification: an estimate of 100 tokens reconciled to
    150 leaves the month at 150, and with a limit of 120 the next attempt is
    refused. *)
Example reconcile_100_to_150 :
  let limits := {| daily_email_limit := 10; monthly_token_limit := 120;
                   daily_spend_limit := 500; monthly_spend_limit := 5000 |} in
  let '(d, c1) := checkAndReserve limits sample_clock "owner-1" 100 2 no_usage in
  match d with
  | Granted r =>
      let c2 := reconcile r 150 3 c1 in
      tokens_used (row (monthly c1) "owner-1" "2025-07") = 100 /\
      tokens_used (row (monthly c2) "owner-1" "2025-07") = 150 /\
      (checkAndReserve limits sample_clock "owner-1" 1 0 c2).1 = LimitExceeded
  | LimitExceeded => False
  end.
Proof. vm_compute. repeat split. Qed.


End UsageGuardFacts.

(** ** More on the OAuth connect handler *)

Section ConnectRouteMore.
Import ConnectRoute.

Ltac run_eff :=
  unfold try_catch, mbind, Eff_bind, bind, lift, fetch, mret, Eff_ret; cbn.

(** With both members truthy, the handler's answer is the backend's: an ok
    answer is passed on as 200 with the backend's JSON whatever 2xx status it
    had, and a non-ok answer keeps its status and carries the backend's
    [detail], or the default message when there is none. *)
Theorem POST_passes_backend_answer (fields : list (string * json))
    (provider user_id : json) (api_url : option string) (net : network)
    (response : FetchResponse) (data : json) :
  member "provider" fields = Some provider ->
  member "user_id" fields = Some user_id ->
  truthy (Some provider) = true ->
  truthy (Some user_id) = true ->
  net (connect_request api_url provider user_id) = Normal response ->
  json_body response = Normal data ->
  (ok response = true ->
   fst (POST (Normal (JObj fields)) api_url net)
   = Normal {| http_status := 200; http_body := data |})
  /\ (300 <= status response <= 599 ->
      null_body_status (status response) = false ->
      data <> JNull ->
      exists detail,
        get data "detail" = Normal detail /\
        fst (POST (Normal (JObj fields)) api_url net)
        = Normal {| http_status := status response;
                    http_body :=
                      JObj [("error",
                             or_else detail (JStr "Failed to connect OAuth provider"))] |}).
Proof.
  intros Hp Hu Tp Tu Hnet Hdata.
  unfold POST, POST_try. run_eff. rewrite Hp, Hu. cbn in Tp, Tu.
  rewrite Tp, Tu. cbn. rewrite Hnet. cbn.
  split.
  - intros Hok. rewrite Hok. cbn. rewrite Hdata. reflexivity.
  - intros Hs Hnb Hnn.
    assert (Hok : ok response = false).
    { unfold ok. destruct (Z.leb_spec (status response) 299); [lia|].
      apply andb_false_r. }
    rewrite Hok. cbn. rewrite Hdata. cbn.
    assert (Hget : exists detail, get data "detail" = Normal detail).
    { destruct data; cbn; eauto. congruence. }
    destruct Hget as [detail Hget]. exists detail. split; [exact Hget|].
    rewrite Hget. cbn. unfold NextResponse_json.
    destruct (Z.leb_spec 200 (status response)); [|lia].
    destruct (Z.leb_spec (status response) 599); [|lia].
    cbn. rewrite Hnb. reflexivity.
Qed.

Lemma POST_passes_backend_answer_witness :
  let net : network := fun _ =>
    Normal {| status := 201; json_body := Normal (JObj [("oauth_url", JStr "https://x")]);
              text_body := Normal "" |} in
  fst (POST (Normal (JObj [("provider", JStr "outlook"); ("user_id", JStr "u1")]))
         None net)
  = Normal {| http_status := 200; http_body := JObj [("oauth_url", JStr "https://x")] |}.
Proof.
  intros net.
  apply (POST_passes_backend_answer
           [("provider", JStr "outlook"); ("user_id", JStr "u1")]
           (JStr "outlook") (JStr "u1") None net
           {| status := 201; json_body := Normal (JObj [("oauth_url", JStr "https://x")]);
              text_body := Normal "" |}
           (JObj [("oauth_url", JStr "https://x")]));
    reflexivity.
Defined.

(** The handler never throws, and everything that fails inside it (a request
    body that is not JSON, a rejected [fetch], a backend body that is not
    JSON) is answered 500 with 'Internal server error'. *)
Theorem POST_failures_are_500 (request_json : completion json)
    (api_url : option string) (net : network) :
  (exists r, fst (POST request_json api_url net) = Normal r)
  /\ (forall e, request_json = Throw e ->
        POST request_json api_url net = (Normal internal_error_response, []))
  /\ (forall body e, request_json = Normal body -> lacks_fields body = false ->
        (forall rq, net rq = Throw e) ->
        fst (POST request_json api_url net) = Normal internal_error_response)
  /\ (forall body response e, request_json = Normal body ->
        lacks_fields body = false ->
        (forall rq, net rq = Normal response) ->
        json_body response = Throw e ->
        fst (POST request_json api_url net) = Normal internal_error_response).
Proof.
  split; [apply POST_never_throws|]. split; [|split].
  - intros e ->. reflexivity.
  - intros body e -> Hl Hnet.
    unfold lacks_fields in Hl. destruct body; cbn in Hl; try discriminate.
    unfold POST, POST_try. run_eff.
    destruct (member "provider" fields) as [p|]; [|discriminate].
    destruct (member "user_id" fields) as [u|];
      [|rewrite orb_true_r in Hl; discriminate].
    cbn in Hl. rewrite Hl. cbn. rewrite Hnet. reflexivity.
  - intros body response e -> Hl Hnet Hj.
    unfold lacks_fields in Hl. destruct body; cbn in Hl; try discriminate.
    unfold POST, POST_try. run_eff.
    destruct (member "provider" fields) as [p|]; [|discriminate].
    destruct (member "user_id" fields) as [u|];
      [|rewrite orb_true_r in Hl; discriminate].
    cbn in Hl. rewrite Hl. cbn. rewrite Hnet. cbn.
    destruct (ok response); cbn; rewrite Hj; reflexivity.
Qed.

Lemma POST_failures_are_500_witness :
  POST (Throw (TypeError_null "x")) None (fun _ => Throw (TypeError_null "y"))
  = (Normal internal_error_response, []).
Proof.
  apply (POST_failures_are_500 (Throw (TypeError_null "x")) None
           (fun _ => Throw (TypeError_null "y")) ) with (e := TypeError_null "x").
  reflexivity.
Defined.

End ConnectRouteMore.

(** ** The service status route *)

Section StatusRouteFacts.
Import StatusRoute.

Ltac run_eff :=
  unfold try_catch, mbind, Eff_bind, bind, lift, fetch, mret, Eff_ret; cbn.

(** The route answers 400 'Missing user_id parameter' without calling the
    backend exactly when the query has no [user_id] or an empty one; otherwise
    it sends one GET for that user's service status, the id put into the path
    as it came. *)
Theorem status_GET_requires_user_id (user_id : option string)
    (api_url : option string) (net : network) :
  (GET user_id api_url net = (Normal missing_user_response, [])
   <-> user_id = None \/ user_id = Some "")
  /\ (forall userId, user_id = Some userId -> userId <> "" ->
        snd (GET user_id api_url net) = [status_lookup_request api_url userId]).
Proof.
  assert (Hsent : forall userId, userId <> "" ->
            snd (GET (Some userId) api_url net)
            = [status_lookup_request api_url userId]).
  { intros userId Hne. unfold GET, GET_try.
    destruct (String.eqb_spec userId ""); [contradiction|]. run_eff.
    destruct (net _) as [response|e]; cbn; [|reflexivity].
    destruct (ok response); cbn.
    - destruct (json_body response); cbn; reflexivity.
    - destruct (errorMessage_of response); cbn; [|reflexivity].
      destruct (NextResponse_json _ _); reflexivity. }
  split; [split|].
  - intros H. destruct user_id as [userId|]; [|left; reflexivity].
    right. destruct (String.eqb_spec userId ""); [congruence|].
    specialize (Hsent userId n). rewrite H in Hsent. discriminate Hsent.
  - intros [->| ->]; reflexivity.
  - intros userId -> Hne. apply Hsent. exact Hne.
Qed.

Lemma status_GET_requires_user_id_witness :
  snd (GET (Some "u1") None (fun _ => Throw (TypeError_null "x")))
  = [status_lookup_request None "u1"].
Proof.
  apply (status_GET_requires_user_id (Some "u1") None
           (fun _ => Throw (TypeError_null "x"))); [reflexivity|discriminate].
Defined.

(** For a non-ok backend answer whose body is JSON (and not [null]) the
    route keeps the backend's status and reports the body's [detail], or
    'Failed to get service status' when the detail is missing or falsy. When
    the body is not JSON or is [null] and [response.text()] rejects, as it does
    for a body that has been read, the route answers 500. *)
Theorem status_GET_error_message (userId : string) (api_url : option string)
    (net : network) (response : FetchResponse) :
  userId <> "" ->
  net (status_lookup_request api_url userId) = Normal response ->
  300 <= status response <= 599 ->
  null_body_status (status response) = false ->
  (forall data detail, json_body response = Normal data ->
     get data "detail" = Normal detail ->
     fst (GET (Some userId) api_url net)
     = Normal {| http_status := status response;
                 http_body :=
                   JObj [("error",
                          or_else detail (JStr "Failed to get service status"))] |})
  /\ (forall t, (forall data, json_body response = Normal data -> data = JNull) ->
       text_body response = Throw t ->
       fst (GET (Some userId) api_url net)
       = Normal ConnectRoute.internal_error_response).
Proof.
  intros Hne Hnet Hs Hnb.
  assert (Hok : ok response = false).
  { unfold ok. destruct (Z.leb_spec (status response) 299); [lia|].
    apply andb_false_r. }
  split.
  - intros data detail Hj Hd. unfold GET, GET_try.
    destruct (String.eqb_spec userId ""); [contradiction|]. run_eff.
    rewrite Hnet. cbn. rewrite Hok. cbn. unfold errorMessage_of.
    rewrite Hj, Hd. cbn. unfold NextResponse_json.
    destruct (Z.leb_spec 200 (status response)); [|lia].
    destruct (Z.leb_spec (status response) 599); [|lia].
    cbn. rewrite Hnb. reflexivity.
  - intros t Hj Ht. unfold GET, GET_try.
    destruct (String.eqb_spec userId ""); [contradiction|]. run_eff.
    rewrite Hnet. cbn. rewrite Hok. cbn. unfold errorMessage_of.
    rewrite Ht.
    destruct (json_body response) as [data|e] eqn:Ej; [|reflexivity].
    rewrite (Hj data eq_refl). reflexivity.
Qed.

Lemma status_GET_error_message_witness :
  let response := {| status := 404;
                     json_body := Normal (JObj [("detail", JStr "User not found")]);
                     text_body := Throw (TypeError_null "x") |} in
  fst (GET (Some "u1") None (fun _ => Normal response))
  = Normal {| http_status := 404;
              http_body := JObj [("error", JStr "User not found")] |}.
Proof.
  intros response.
  destruct (status_GET_error_message "u1" None (fun _ => Normal response) response)
    as [H _]; [discriminate|reflexivity|cbn; lia|reflexivity|].
  apply (H (JObj [("detail", JStr "User not found")]) (Some (JStr "User not found")));
    reflexivity.
Defined.

End StatusRouteFacts.

(** ** The Pipedrive callback route *)

Section CallbackRouteFacts.
Import CallbackRoute.

Ltac run_eff :=
  unfold try_catch, mbind, Eff_bind, bind, lift, fetch, mret, Eff_ret; cbn.

Lemma error_target_is_not_success (reason : string) :
  error_target reason <> success_target.
Proof. unfold error_target, success_target. cbn. discriminate. Qed.

(** The callback always answers with a redirect into the dashboard and never
    throws; the redirect announces success exactly when [code] and [state]
    are both present and non-empty, the backend answered with an ok status
    and its body parsed as JSON; every other case carries an [oauth_error]. *)
Theorem callback_GET_success_iff (code state : option string)
    (api_url : option string) (net : network) :
  (exists target, fst (GET code state api_url net) = Normal target /\
                  (target = success_target \/ exists reason, target = error_target reason))
  /\ (fst (GET code state api_url net) = Normal success_target
      <-> exists c s response data,
            code = Some c /\ c <> "" /\ state = Some s /\ s <> "" /\
            net (callback_request api_url c s) = Normal response /\
            ok response = true /\ json_body response = Normal data).
Proof.
  unfold GET, GET_try.
  destruct code as [c|]; [|cbn; split; [eauto|]; split;
     [intros [= H]; destruct (error_target_is_not_success _ H)
     |intros (? & ? & ? & ? & [=] & _)]].
  destruct state as [s|]; [|cbn; split; [eauto|]; split;
     [intros [= H]; destruct (error_target_is_not_success _ H)
     |intros (? & ? & ? & ? & _ & _ & [=] & _)]].
  cbn [param_truthy].
  destruct (String.eqb_spec c "") as [->|Hc]; cbn.
  { split; [eauto|]. split;
      [intros [= H]; destruct (error_target_is_not_success _ H)
      |intros (? & ? & ? & ? & [= <-] & N & _); congruence]. }
  destruct (String.eqb_spec s "") as [->|Hs]; cbn.
  { split; [eauto|]. split;
      [intros [= H]; destruct (error_target_is_not_success _ H)
      |intros (? & ? & ? & ? & _ & _ & [= <-] & N & _); congruence]. }
  run_eff.
  destruct (net (callback_request api_url c s)) as [response|e] eqn:Hnet; cbn.
  2:{ split; [eauto|]. split;
        [intros [= H]; destruct (error_target_is_not_success _ H)
        |intros (? & ? & ? & ? & [= <-] & _ & [= <-] & _ & N & _); congruence]. }
  destruct (ok response) eqn:Hok; cbn.
  - destruct (json_body response) as [data|e] eqn:Hj; cbn.
    + split; [eauto|]. split; [intros _|reflexivity].
      exists c, s, response, data. auto 10.
    + split; [eauto|]. split;
        [intros [= H]; destruct (error_target_is_not_success _ H)
        |intros (? & ? & ? & ? & [= <-] & _ & [= <-] & _ & N & _ & J);
         rewrite Hnet in N; injection N as <-; congruence].
  - assert (Hno : ~ exists c0 s0 response0 data,
              Some c = Some c0 /\ c0 <> "" /\ Some s = Some s0 /\ s0 <> "" /\
              net (callback_request api_url c0 s0) = Normal response0 /\
              ok response0 = true /\ json_body response0 = Normal data).
    { intros (? & ? & ? & ? & [= <-] & _ & [= <-] & _ & N & O & _).
      rewrite Hnet in N. injection N as <-. congruence. }
    destruct (json_body response) as [data|e]; cbn.
    + destruct (get data "detail"); cbn.
      * split; [eauto|]. split;
          [intros [= H]; destruct (error_target_is_not_success _ H)
          |intros H; destruct (Hno H)].
      * split; [eauto|]. split;
          [intros [= H]; destruct (error_target_is_not_success _ H)
          |intros H; destruct (Hno H)].
    + split; [eauto|]. split;
        [intros [= H]; destruct (error_target_is_not_success _ H)
        |intros H; destruct (Hno H)].
Qed.

Lemma callback_GET_success_iff_witness :
  let net : network := fun _ =>
    Normal {| status := 200; json_body := Normal JNull; text_body := Normal "" |} in
  fst (GET (Some "abc") (Some "xyz") None net) = Normal success_target.
Proof.
  intros net.
  apply (callback_GET_success_iff (Some "abc") (Some "xyz") None net).
  exists "abc", "xyz",
    {| status := 200; json_body := Normal JNull; text_body := Normal "" |}, JNull.
  repeat split; discriminate.
Defined.

End CallbackRouteFacts.

(** ** [connectOAuth] *)

Section ConnectOAuthFacts.
Import UseOAuth ConnectOAuth.

(** Whatever the network does, [connectOAuth] ends with [loading] false,
    sends the connect POST first and at most one status request after it, and
    assigns [window.location.href] only on a path where it sent nothing else
    and recorded no error. *)
Theorem connectOAuth_effects (seen : Z) (provider userId : string) (now : Z)
    (net : network) (st : HookState) :
  let r := connectOAuth seen provider userId now net st in
  loading (state_after r) = false
  /\ (requests r = [connect_post provider userId]
      \/ requests r = [connect_post provider userId; status_request userId])
  /\ (navigated r <> None ->
      requests r = [connect_post provider userId] /\
      error (state_after r) = None /\
      serviceStatus (state_after r) = serviceStatus st /\
      lastRefresh (state_after r) = lastRefresh st).
Proof.
  unfold connectOAuth.
  destruct (net (connect_post provider userId)) as [response|e]; cbn;
    [|split; [reflexivity|split; [auto|congruence]]].
  destruct (ok response); cbn.
  - destruct (json_body response) as [data|e]; cbn;
      [|split; [reflexivity|split; [auto|congruence]]].
    destruct (get data "oauth_url") as [v|e]; cbn;
      [|split; [reflexivity|split; [auto|congruence]]].
    destruct (truthy v); cbn; [split; [reflexivity|split; auto]|].
    destruct (Z.lt_ge_cases (now - seen) 2000) as [Hd|Hd].
    + rewrite (refreshStatus_early_return seen userId now net _ Hd). cbn.
      split; [reflexivity|split; [auto|congruence]].
    + destruct (refreshStatus_passes seen userId now net
                  (setError None (setLoading true st)) Hd) as (_ & _ & Hs).
      destruct (refreshStatus seen userId now net _) as [st' sent]. cbn in *.
      subst sent. split; [reflexivity|split; [auto|congruence]].
  - destruct (json_body response) as [data|e]; cbn;
      [|split; [reflexivity|split; [auto|congruence]]].
    destruct (get data "error") as [v|e]; cbn;
      split; first [reflexivity|split; [auto|congruence]].
Qed.

Lemma connectOAuth_effects_witness :
  let net : network := fun _ =>
    Normal {| status := 200;
              json_body := Normal (JObj [("oauth_url", JStr "https://login.example")]);
              text_body := Normal "" |} in
  requests (connectOAuth 0 "outlook" "u1" 1700000000000 net initial)
  = [connect_post "outlook" "u1"].
Proof.
  intros net.
  destruct (connectOAuth_effects 0 "outlook" "u1" 1700000000000 net initial)
    as (_ & _ & H).
  apply H. discriminate.
Defined.

(** A backend that answers ok without a truthy [oauth_url] makes
    [connectOAuth] fall back on [refreshStatus], which is subject to the
    debounce: less than 2000 ms after the [lastRefresh] its render saw, the
    fallback sends no status request and [serviceStatus] keeps its value. *)
Theorem connectOAuth_fallback_is_debounced (seen : Z) (provider userId : string)
    (now : Z) (net : network) (st : HookState) (response : FetchResponse)
    (fields : list (string * json)) :
  net (connect_post provider userId) = Normal response ->
  ok response = true ->
  json_body response = Normal (JObj fields) ->
  truthy (member "oauth_url" fields) = false ->
  let r := connectOAuth seen provider userId now net st in
  navigated r = None
  /\ (now - seen < 2000 ->
      requests r = [connect_post provider userId] /\
      serviceStatus (state_after r) = serviceStatus st /\
      lastRefresh (state_after r) = lastRefresh st)
  /\ (2000 <= now - seen ->
      requests r = [connect_post provider userId; status_request userId] /\
      lastRefresh (state_after r) = now).
Proof.
  intros Hnet Hok Hj Ht. unfold connectOAuth.
  rewrite Hnet, Hok. cbn. rewrite Hj. cbn. rewrite Ht.
  split; [|split].
  - destruct (refreshStatus seen userId now net _). reflexivity.
  - intros Hd.
    rewrite (refreshStatus_early_return seen userId now net _ Hd). cbn. auto.
  - intros Hd.
    destruct (refreshStatus_passes seen userId now net
                (setError None (setLoading true st)) Hd) as (Hl & _ & Hs).
    destruct (refreshStatus seen userId now net _) as [st' sent]. cbn in *.
    subst sent. auto.
Qed.

Lemma connectOAuth_fallback_is_debounced_witness :
  let net : network := fun _ =>
    Normal {| status := 200; json_body := Normal (JObj []); text_body := Normal "" |} in
  requests (connectOAuth 1700000000000 "outlook" "u1" 1700000000500 net initial)
  = [connect_post "outlook" "u1"].
Proof.
  intros net.
  destruct (connectOAuth_fallback_is_debounced 1700000000000 "outlook" "u1"
              1700000000500 net initial
              {| status := 200; json_body := Normal (JObj []); text_body := Normal "" |}
              []) as (_ & H & _);
    [reflexivity|reflexivity|reflexivity|reflexivity|].
  apply H. lia.
Defined.

End ConnectOAuthFacts.

(** ** The [useAuth] hook *)

Section UseAuthFacts.
Import UseAuth.

(** [login] answers true exactly when [signIn] resolved to a result without
    error whose [ok] is set, and exactly then it pushes '/dashboard'; a
    result with an error shows 'Invalid credentials'; a result that is
    undefined or has neither error nor [ok] makes [login] answer false with no
    error message at all. In every case [isLoading] ends false. *)
Theorem login_outcomes (signIn : signIn_oracle) (email password : string)
    (st : AuthState) :
  let r := login signIn email password st in
  isLoading (state_after r) = false
  /\ sign_ins r = [{| si_email := email; si_password := password |}]
  /\ (returned r = true <->
      exists result, signIn {| si_email := email; si_password := password |}
                     = Normal result /\
                     error_truthy result = false /\ ok_truthy result = true)
  /\ (returned r = true <-> pushed r = ["/dashboard"])
  /\ (forall result, signIn {| si_email := email; si_password := password |}
                     = Normal result ->
       error_truthy result = false -> ok_truthy result = false ->
       returned r = false /\ auth_error (state_after r) = None /\ pushed r = []).
Proof.
  unfold login.
  destruct (signIn _) as [result|e] eqn:Hs; cbn.
  - destruct (error_truthy result) eqn:He; cbn.
    + repeat split; try discriminate; try congruence.
      intros (r' & [= <-] & N & _). congruence.
    + destruct (ok_truthy result) eqn:Ho; cbn.
      * repeat split; try discriminate; try congruence; eauto.
      * repeat split; try discriminate; try congruence.
        intros (r' & [= <-] & _ & N). congruence.
  - repeat split; try discriminate; try congruence.
    intros (r' & [=] & _).
Qed.

Lemma login_outcomes_witness :
  returned (login (fun _ => Normal (Some {| si_error := None; si_ok := true |}))
              "ann@example.com" "pw" {| isLoading := false; auth_error := None |})
  = true.
Proof.
  destruct (login_outcomes
              (fun _ => Normal (Some {| si_error := None; si_ok := true |}))
              "ann@example.com" "pw" {| isLoading := false; auth_error := None |})
    as (_ & _ & H & _).
  apply H.
  exists (Some {| si_error := None; si_ok := true |}). repeat split.
Defined.

(** [signup] calls [signIn] only after the backend accepted the new account,
    and then with the account's email and the fixed password 'temp-password';
    it answers true exactly when that sign-in resolved with [ok] set. A
    refused account shows the backend's [detail] or 'Failed to create
    account'. *)
Theorem signup_outcomes (api_url : option string) (net : network)
    (signIn : signIn_oracle) (data : SignUpData) (st : AuthState) :
  let r := signup api_url net signIn data st in
  let c := {| si_email := su_email data; si_password := "temp-password" |} in
  requests r = [signup_request api_url data]
  /\ isLoading (state_after r) = false
  /\ (sign_ins r = [] \/ sign_ins r = [c])
  /\ (sign_ins r = [c] <->
      exists response, net (signup_request api_url data) = Normal response /\
                       ok response = true)
  /\ (returned r = true <->
      exists response result,
        net (signup_request api_url data) = Normal response /\ ok response = true /\
        signIn c = Normal result /\ ok_truthy result = true)
  /\ (forall response errorData detail,
        net (signup_request api_url data) = Normal response -> ok response = false ->
        json_body response = Normal errorData ->
        get errorData "detail" = Normal detail ->
        auth_error (state_after r)
        = Some (or_else detail (JStr "Failed to create account"))).
Proof.
  unfold signup.
  destruct (net (signup_request api_url data)) as [response|e] eqn:Hnet; cbn.
  - destruct (ok response) eqn:Hok; cbn.
    + destruct (signIn _) as [result|e] eqn:Hs; cbn;
        [destruct (ok_truthy result) eqn:Ho; cbn|];
        repeat split; try naive_solver.
      all: intros;
        repeat match goal with
          | H : exists _, _ |- _ => destruct H
          | H : _ /\ _ |- _ => destruct H
          end; simplify_eq; congruence.
    + destruct (json_body response) as [errorData|e] eqn:Hj; cbn;
        [destruct (get errorData "detail") as [detail|e] eqn:Hd; cbn|];
        repeat split; try naive_solver.
      all: intros;
        repeat match goal with
          | H : exists _, _ |- _ => destruct H
          | H : _ /\ _ |- _ => destruct H
          end; simplify_eq; congruence.
  - repeat split; try naive_solver.
Qed.

Lemma signup_outcomes_witness :
  let net : network := fun _ =>
    Normal {| status := 201; json_body := Normal JNull; text_body := Normal "" |} in
  sign_ins (signup None net (fun _ => Normal None)
              {| su_email := "ann@example.com"; su_name := None |}
              {| isLoading := false; auth_error := None |})
  = [{| si_email := "ann@example.com"; si_password := "temp-password" |}].
Proof.
  intros net.
  destruct (signup_outcomes None net (fun _ => Normal None)
              {| su_email := "ann@example.com"; su_name := None |}
              {| isLoading := false; auth_error := None |})
    as (_ & _ & _ & H & _).
  apply H.
  exists {| status := 201; json_body := Normal JNull; text_body := Normal "" |}.
  split; reflexivity.
Defined.

End UseAuthFacts.

(** ** The NextAuth callbacks *)

Section NextAuthCallbackFacts.
Import NextAuthRoute NextAuthCallbacks.

(** The id travels from [authorize] through [jwt] into the session: after the
    sign-in call of [jwt], any number of later calls without a user keep the
    token's id, and [session] copies it into a session that has a user, so a
    sign-in served by the fallback ends with the session id 'user-<email>'
    whatever password was typed. *)
Theorem session_id_of_fallback_sign_in (api_url : option string) (net : network)
    (e p : string) (token : JWT) (later : nat) (s : Session) (u : SessionUser) :
  e <> "" -> p <> "" ->
  (forall rq, exists t, net rq = Throw t) ->
  session_user s = Some u ->
  exists user,
    fst (authorize api_url net
           (Some {| cred_email := Some e; cred_password := Some p |}))
    = Normal (Some user)
    /\ let signed := jwt token (Some user) in
       let refreshed := Nat.iter later (fun t => jwt t None) signed in
       refreshed = signed
       /\ jwt_claims signed = jwt_claims token
       /\ session_user (session s (Some refreshed))
          = Some {| su_id := Some (JStr ("user-" +:+ e)); su_email := su_email u;
                    su_name := su_name u; su_image := su_image u |}.
Proof.
  intros He Hp Hnet Hu.
  exists (fallback_user e). split.
  - rewrite (authorize_unfold api_url net e p He Hp).
    apply authorize_try_fallback. intros resp Hr.
    destruct (Hnet (user_lookup_request api_url e)) as [t Ht]. congruence.
  - cbv zeta.
    assert (Hiter : forall n t, Nat.iter n (fun t => jwt t None) t = t).
    { induction n as [|n IH]; intros t; [reflexivity|]. cbn. apply IH. }
    rewrite Hiter. repeat split.
    unfold session. cbn. rewrite Hu. reflexivity.
Qed.

Lemma session_id_of_fallback_sign_in_witness :
  exists user,
    fst (authorize None (fun _ => Throw (TypeError_null "x"))
           (Some {| cred_email := Some "ann@example.com"; cred_password := Some "pw" |}))
    = Normal (Some user).
Proof.
  destruct (session_id_of_fallback_sign_in None (fun _ => Throw (TypeError_null "x"))
              "ann@example.com" "pw" {| jwt_id := None; jwt_claims := [] |} 3
              {| session_user := Some {| su_id := None; su_email := None;
                                         su_name := None; su_image := None |};
                 session_expires := "2030-01-01" |}
              {| su_id := None; su_email := None; su_name := None; su_image := None |})
    as (user & H & _); [discriminate|discriminate|eauto|reflexivity|].
  exists user. exact H.
Defined.

(** [session] leaves a session without a user, or without a token, exactly
    as it is, and never touches anything but the user's id. *)
Theorem session_only_sets_id (s : Session) (token : option JWT) :
  session_expires (session s token) = session_expires s
  /\ (session_user s = None -> session s token = s)
  /\ (token = None -> session s token = s)
  /\ (forall u u', session_user s = Some u ->
        session_user (session s token) = Some u' ->
        su_email u' = su_email u /\ su_name u' = su_name u /\
        su_image u' = su_image u).
Proof.
  unfold session. destruct token as [t|], (session_user s) as [u|] eqn:Hu; cbn;
    repeat split; try congruence; intros; simplify_eq; try reflexivity;
    try congruence.
Qed.

Lemma session_only_sets_id_witness :
  session {| session_user := None; session_expires := "2030-01-01" |}
    (Some {| jwt_id := Some (JStr "u1"); jwt_claims := [] |})
  = {| session_user := None; session_expires := "2030-01-01" |}.
Proof.
  destruct (session_only_sets_id
              {| session_user := None; session_expires := "2030-01-01" |}
              (Some {| jwt_id := Some (JStr "u1"); jwt_claims := [] |}))
    as (_ & H & _).
  apply H. reflexivity.
Defined.

End NextAuthCallbackFacts.

(** ** The revisions of the credentials provider *)

Section NextAuthHistoryFacts.
Import NextAuthRoute NextAuthHistory.

Lemma guarded_run (e p : string) (run : string -> Eff (option User)) :
  e <> "" -> p <> "" ->
  guarded (Some {| cred_email := Some e; cred_password := Some p |}) run = run e.
Proof.
  intros He Hp. unfold guarded. cbn [cred_email cred_password].
  rewrite (field_truthy_nonempty e He), (field_truthy_nonempty p Hp). reflexivity.
Qed.

(** On a backend failure the three revisions part ways. With a non-empty
    email and password: the strict revision refuses the sign-in whenever the
    lookup is not ok or [fetch] throws; the workaround revision signs in the
    temporary user 'temp-user-id' when [fetch] throws or the status is 500 and
    refuses otherwise; the current route signs in the fallback user in all of
    these cases. *)
Theorem revisions_on_backend_failure (api_url : option string) (net : network)
    (e p : string) :
  e <> "" -> p <> "" ->
  let credentials := Some {| cred_email := Some e; cred_password := Some p |} in
  (forall t, (forall rq, net rq = Throw t) ->
     fst (authorize_strict api_url net credentials) = Normal None /\
     fst (authorize_workaround api_url net credentials) = Normal (Some (temp_user e)) /\
     fst (authorize api_url net credentials) = Normal (Some (fallback_user e)))
  /\ (forall response, (forall rq, net rq = Normal response) -> ok response = false ->
       fst (authorize_strict api_url net credentials) = Normal None /\
       fst (authorize_workaround api_url net credentials)
       = Normal (if status response =? 500 then Some (temp_user e) else None) /\
       fst (authorize api_url net credentials) = Normal (Some (fallback_user e))).
Proof.
  intros He Hp credentials. subst credentials.
  unfold authorize_strict, authorize_workaround.
  rewrite !(guarded_run e p _ He Hp), (authorize_unfold api_url net e p He Hp).
  split.
  - intros t Hnet. repeat split.
    + unfold try_catch, mbind, Eff_bind, bind, fetch. rewrite Hnet. reflexivity.
    + unfold try_catch, mbind, Eff_bind, bind, fetch. rewrite Hnet. reflexivity.
    + apply authorize_try_fallback. intros resp Hr. rewrite Hnet in Hr. discriminate.
  - intros response Hnet Hok. repeat split.
    + unfold try_catch, mbind, Eff_bind, bind, fetch. rewrite Hnet, Hok. reflexivity.
    + unfold try_catch, mbind, Eff_bind, bind, fetch. rewrite Hnet, Hok.
      destruct (status response =? 500); reflexivity.
    + apply authorize_try_fallback. intros resp Hr. rewrite Hnet in Hr.
      injection Hr as <-. exact Hok.
Qed.

Lemma revisions_on_backend_failure_witness :
  fst (authorize_strict None (fun _ => Throw (TypeError_null "x"))
         (Some {| cred_email := Some "ann@example.com"; cred_password := Some "pw" |}))
  = Normal None.
Proof.
  destruct (revisions_on_backend_failure None (fun _ => Throw (TypeError_null "x"))
              "ann@example.com" "pw") as (H & _); [discriminate|discriminate|].
  apply (H (TypeError_null "x")). reflexivity.
Defined.

End NextAuthHistoryFacts.

(** ** Structured logging *)

Section LoggingFacts.
Import Logging.

#[local] Arguments is_sensitive : simpl never.

(** Induction over the dictionaries nested in a value. *)
Lemma pyval_dict_ind (P : pyval -> Prop) :
  (forall v, (forall items, v <> PDict items) -> P v) ->
  (forall items, Forall (fun item => P item.2) items -> P (PDict items)) ->
  forall v, P v.
Proof.
  intros Hleaf Hdict. fix IH 1. intros v.
  destruct v as [| | | | |items]; try (apply Hleaf; intros; discriminate).
  apply Hdict. induction items as [|[k x] rest IHrest]; constructor.
  - apply IH.
  - exact IHrest.
Qed.

Lemma sanitize_value_dict (data : list (string * pyval)) :
  sanitize_value (PDict data) = PDict (sanitize_log_data data).
Proof.
  cbn. f_equal. unfold sanitize_log_data. apply map_ext. intros [k x]. reflexivity.
Qed.

Example sanitize_sample :
  sanitize_log_data
    [("user", PStr "ann"); ("Password", PStr "hunter2");
     ("oauth", PDict [("ACCESS_TOKEN", PStr "ya29"); ("scope", PStr "mail")]);
     ("api_key", PDict [("value", PStr "sk-1")]);
     ("attempts", PList [PDict [("password", PStr "hunter2")]])]
  = [("user", PStr "ann"); ("Password", REDACTED);
     ("oauth", PDict [("ACCESS_TOKEN", REDACTED); ("scope", PStr "mail")]);
     ("api_key", REDACTED);
     ("attempts", PList [PDict [("password", PStr "hunter2")]])].
Proof. reflexivity. Qed.

(** Sanitizing twice is sanitizing once. *)
Theorem sanitize_log_data_idempotent (data : list (string * pyval)) :
  sanitize_log_data (sanitize_log_data data) = sanitize_log_data data.
Proof.
  assert (H : forall v, sanitize_value (sanitize_value v) = sanitize_value v).
  { apply pyval_dict_ind.
    - intros v Hv. destruct v; try reflexivity. destruct (Hv items eq_refl).
    - intros items Hall. cbn. f_equal. rewrite List.map_map.
      induction Hall as [|[k x] rest Hx _ IH]; [reflexivity|].
      cbn in *. rewrite IH. f_equal.
      destruct (is_sensitive k); [reflexivity|]. rewrite Hx. reflexivity. }
  pose proof (H (PDict data)) as Hd.
  rewrite !sanitize_value_dict in Hd. injection Hd as Hd. exact Hd.
Qed.

(** The sanitized dictionary has the keys of the original, in the same
    order, and at no depth of nested dictionaries does a sensitive key (in any
    letter case) hold anything but the marker; so neither does the entry
    [log_event] writes. *)
Theorem log_event_never_exposes (timestamp user_id event_type level : string)
    (data : list (string * pyval)) :
  List.map fst (sanitize_log_data data) = List.map fst data
  /\ exposed (PDict (sanitize_log_data data)) = false
  /\ exposed (log_entry timestamp user_id event_type level data) = false.
Proof.
  assert (H : forall v, exposed (sanitize_value v) = false).
  { apply pyval_dict_ind.
    - intros v Hv. destruct v; try reflexivity. destruct (Hv items eq_refl).
    - intros items Hall. cbn.
      induction Hall as [|[k x] rest Hx _ IH]; [reflexivity|].
      cbn. rewrite IH, orb_false_r.
      destruct (is_sensitive k) eqn:Hk; [reflexivity|exact Hx]. }
  split; [|split].
  - unfold sanitize_log_data. rewrite List.map_map. reflexivity.
  - rewrite <- sanitize_value_dict. apply H.
  - unfold log_entry. cbn -[sanitize_log_data exposed].
    change (exposed (PDict (sanitize_log_data data)) || false = false).
    rewrite <- sanitize_value_dict, H. reflexivity.
Qed.

(** What the sanitizer does not look into: a dictionary inside a list keeps
    its password. *)
Example sanitize_skips_lists :
  exposed (PList [PDict [("password", PStr "hunter2")]]) = false /\
  sanitize_value (PList [PDict [("password", PStr "hunter2")]])
  = PList [PDict [("password", PStr "hunter2")]].
Proof. split; reflexivity. Qed.

End LoggingFacts.

(** ** More on the email pipeline *)

Section PipelineMore.
Import Pipeline.

Context {Ext OutlookClient AIClient PipedriveClient Deal WebSocket : Type}.
Variable svc : Services Ext OutlookClient AIClient PipedriveClient Deal WebSocket.

Ltac unfold_pipeline :=
  unfold process_email_webhook, process_email_webhook_try, try_except_finally,
    log_email_analysis, send_update, disconnect, subscript, call, modify, raise,
    mbind, M_mbind, M_bind, mret, M_ret.

Ltac split_run :=
  repeat match goal with
    | |- context [match ?f svc ?a ?b ?c ?x with _ => _ end] =>
        destruct (f svc a b c x) as [[?|?] ?] eqn:?; cbn
    | |- context [match ?f svc ?a ?b ?x with _ => _ end] =>
        destruct (f svc a b x) as [[?|?] ?] eqn:?; cbn
    | |- context [match ?f svc ?a ?x with _ => _ end] =>
        destruct (f svc a x) as [[?|?] ?] eqn:?; cbn
    | |- context [match ?f svc ?x with _ => _ end] =>
        destruct (f svc x) as [[?|?] ?] eqn:?; cbn
    | |- context [match ?d !! ?k with _ => _ end] => destruct (d !! k) eqn:?; cbn
    | |- context [if ?b then _ else _] => destruct b eqn:?; cbn
    end.

Ltac run_paths wd uid st :=
  let Hrun := fresh "Hrun" in
  destruct (process_email_webhook svc wd uid st) as [[? ?] ?] eqn:Hrun;
  revert Hrun; unfold_pipeline; cbn; split_run; intros [= <- <- <-].

(** A webhook without a [message_id] never reaches the mailbox: the run
    raises (KeyError unless the limit check or the client lookup raised
    first), fetches no content, asks no AI and writes no row. *)
Theorem missing_message_id_fetches_nothing (wd : gmap string string)
    (uid : string) (st : State Ext WebSocket) :
  wd !! "message_id" = None ->
  let '(r, st', evs) := process_email_webhook svc wd uid st in
  outcome_of GetEmailContent evs = None
  /\ outcome_of AnalyzeEmail evs = None
  /\ email_analysis_logs st' = email_analysis_logs st
  /\ exists e, r = Raise e /\
               (e = KeyError "message_id"
                \/ outcome_of CheckLimits evs = Some (Raised e)
                \/ outcome_of GetOutlookClient evs = Some (Raised e)).
Proof.
  intros Hwd. run_paths wd uid st; try congruence.
  all: cbn; repeat split; eauto.
Qed.


(** No collaborator is called twice in one run. *)
Theorem run_calls_each_collaborator_once (wd : gmap string string) (uid : string)
    (st : State Ext WebSocket) (c : Capability) :
  (calls_of c (process_email_webhook svc wd uid st).2 <= 1)%nat.
Proof.
  run_paths wd uid st; destruct c; cbn; lia.
Qed.

(** The row a run appends says [deal_created] exactly when [create_deal] was
    called and returned, never without the sales-opportunity flag, and it
    belongs to the user the run was started for. *)
Theorem logged_row_matches_run (wd : gmap string string) (uid : string)
    (st : State Ext WebSocket) :
  let '(r, st', evs) := process_email_webhook svc wd uid st in
  forall l, email_analysis_logs st' = email_analysis_logs st ++ [l] ->
    log_user_id l = uid
    /\ (deal_created l = true <-> outcome_of CreateDeal evs = Some Returned)
    /\ (deal_created l = true -> log_is_sales_opportunity l = true)
    /\ outcome_of DbCommit evs = Some Returned.
Proof.
  run_paths wd uid st; cbn; intros l Hl.
  all: try (apply (f_equal length) in Hl; rewrite length_app in Hl; cbn in Hl; lia).
  all: apply app_inv_head in Hl; injection Hl as <-; cbn.
  all: repeat split; try congruence.
  all: try match goal with
         | H : _ && _ = true |- _ => apply andb_prop in H as [? _]; auto
         end.
Qed.

(** A web-socket send is attempted only after [track_usage] returned and only
    for a connected user; when the send fails the run still returns, the row
    stays, and the user's connection is dropped. *)
Theorem failed_send_does_not_fail_run (wd : gmap string string) (uid : string)
    (st : State Ext WebSocket) :
  let '(r, st', evs) := process_email_webhook svc wd uid st in
  (outcome_of SendText evs <> None ->
   outcome_of TrackUsage evs = Some Returned /\
   is_Some (active_connections st !! uid) /\ r = Return tt)
  /\ (forall e, outcome_of SendText evs = Some (Raised e) ->
        r = Return tt /\
        active_connections st' = delete uid (active_connections st) /\
        length (email_analysis_logs st') = S (length (email_analysis_logs st)))
  /\ (outcome_of SendText evs = Some Returned ->
      active_connections st' = active_connections st).
Proof.
  run_paths wd uid st; cbn.
  all: split; [intros H; try congruence; repeat split; eauto|].
  all: split; [intros e' He'; try discriminate He';
               repeat split; rewrite ?length_app; cbn; lia
              |intros H; try discriminate H; reflexivity].
Qed.


End PipelineMore.

Section PipelineMoreRuns.
Import Pipeline Samples.

Lemma missing_message_id_fetches_nothing_witness :
  outcome_of GetEmailContent
    (process_email_webhook (stub_services sample_stub) no_message_webhook "user123"
       empty_state).2 = None.
Proof.
  pose proof (missing_message_id_fetches_nothing (stub_services sample_stub)
                no_message_webhook "user123" empty_state eq_refl) as H.
  destruct (process_email_webhook (stub_services sample_stub) no_message_webhook
              "user123" empty_state) as [[r st'] evs].
  destruct H as (H & _). exact H.
Defined.


Lemma logged_row_matches_run_witness :
  exists l,
    email_analysis_logs
      (process_email_webhook (stub_services sample_stub) sample_webhook "user123"
         empty_state).1.2 = [l]
    /\ log_user_id l = "user123".
Proof.
  pose proof (logged_row_matches_run (stub_services sample_stub)
                sample_webhook "user123" empty_state) as H.
  destruct (process_email_webhook (stub_services sample_stub) sample_webhook
              "user123" empty_state) as [[r st'] evs] eqn:E.
  vm_compute in E. injection E as _ <- _.
  eexists. split; [reflexivity|].
  apply (H _ eq_refl).
Defined.

Lemma failed_send_does_not_fail_run_witness :
  (process_email_webhook broken_socket_services sample_webhook "user123"
     connected_state).1.1 = Return tt.
Proof.
  pose proof (failed_send_does_not_fail_run broken_socket_services
                sample_webhook "user123" connected_state) as H.
  destruct (process_email_webhook broken_socket_services sample_webhook "user123"
              connected_state) as [[r st'] evs] eqn:E.
  destruct H as (_ & H & _).
  apply (H timeout_error).
  vm_compute in E. injection E as _ _ <-. reflexivity.
Defined.


End PipelineMoreRuns.

(** ** Usage tracking around an AI call *)

Section AiUsageFacts.
Import Pipeline AiUsage.

Context {Ext AIResult AIClient AIResponse : Type}.
Variable mon : Monitor Ext AIResult AIClient AIResponse.

(** A result that [process_with_ai] returns has been paid for: the limits
    were checked first, the AI was called once, and [track_usage] was then
    called with that result's own tokens and cost and returned. An AI call is
    only made after a limit check that returned, and a run that tracked nothing
    returns no result. *)
Theorem process_with_ai_accounts (user_id content : string) (x : Ext) :
  let '(r, x', calls) := process_with_ai mon user_id content x in
  (forall res, r = Return res ->
     calls = [CheckLimitsCall user_id; ProcessCall content;
              TrackUsageCall user_id (result_tokens mon res) (result_cost mon res)])
  /\ (existsb is_ai_request calls = true ->
      exists x1, check_limits mon user_id x = (Return tt, x1))
  /\ (existsb is_tracking calls = false -> exists e, r = Raise e).
Proof.
  unfold process_with_ai.
  destruct (check_limits mon user_id x) as [[[]|e] x1]; cbn;
    [|repeat split; [discriminate|discriminate|eauto]].
  destruct (process mon content x1) as [[res|e] x2]; cbn;
    [|repeat split; [discriminate|eauto|eauto]].
  destruct (track_usage mon user_id _ _ x2) as [[[]|e] x3]; cbn;
    repeat split; eauto; try discriminate.
  intros res' [= <-]. reflexivity.
Qed.

(** Every request [AIAnalyzer.analyze_email] sends to the AI client is for
    the mail it was given, with at most 500 tokens, and follows a spend check
    that returned for the cost estimated from that same mail and the client's
    model. *)
Theorem analyze_email_checks_spend_first (user_id email_content : string) (x : Ext) :
  let '(r, x', calls) := analyze_email mon user_id email_content x in
  forall c prompt max_tokens, In (AnalyzeContentCall c prompt max_tokens) calls ->
    c = email_content /\ max_tokens = 500 /\
    exists ai_client x1 x2,
      get_ai_client mon user_id x = (Return ai_client, x1) /\
      check_spend_limit mon user_id
        (estimate_cost mon (estimate_tokens mon email_content)
           (client_model mon ai_client)) x1 = (Return tt, x2) /\
      calls = [GetAiClientCall user_id;
               CheckSpendLimitCall user_id
                 (estimate_cost mon (estimate_tokens mon email_content)
                    (client_model mon ai_client));
               AnalyzeContentCall email_content (analysis_prompt mon) 500].
Proof.
  unfold analyze_email.
  destruct (get_ai_client mon user_id x) as [[ai_client|e] x1]; cbn;
    [|intros c pr m [H|[]]; discriminate H].
  destruct (check_spend_limit mon user_id _ x1) as [[[]|e] x2] eqn:Hc; cbn;
    [|intros c pr m [H|[H|[]]]; discriminate H].
  destruct (analyze_content mon ai_client _ _ _ x2) as [[resp|e] x3]; cbn;
    intros c pr m [H|[H|[H|[]]]]; try discriminate H;
    injection H as <- <- <-; repeat split; eauto 10.
Qed.

End AiUsageFacts.

Section AiUsageRuns.
Import Pipeline AiUsage Samples.

Lemma process_with_ai_accounts_witness :
  (process_with_ai counting_monitor "user123" "Please send a quote" 0).2
  = [CheckLimitsCall "user123"; ProcessCall "Please send a quote";
     TrackUsageCall "user123" 150 0%Q].
Proof.
  pose proof (process_with_ai_accounts counting_monitor "user123"
                "Please send a quote" 0) as H.
  destruct (process_with_ai counting_monitor "user123" "Please send a quote" 0)
    as [[r x'] calls] eqn:E.
  destruct H as (H & _). cbn [snd].
  vm_compute in E. injection E as <- _ _.
  apply (H 150). reflexivity.
Defined.

Lemma analyze_email_checks_spend_first_witness :
  exists ai_client x1,
    AiUsage.get_ai_client counting_monitor "user123" 0 = (Return ai_client, x1).
Proof.
  pose proof (analyze_email_checks_spend_first counting_monitor "user123"
                "Please send a quote" 0) as H.
  destruct (analyze_email counting_monitor "user123" "Please send a quote" 0)
    as [[r x'] calls] eqn:E.
  vm_compute in E. injection E as _ _ <-.
  destruct (H "Please send a quote"
              "Analyze this email for sales opportunities." 500)
    as (_ & _ & c & x1 & _ & Hg & _).
  - right. right. left. reflexivity.
  - exists c, x1. exact Hg.
Defined.

End AiUsageRuns.

(** ** The web-socket manager *)

Section SocketFacts.
Import Pipeline Sockets.

Context {Ext OutlookClient AIClient PipedriveClient Deal WebSocket : Type}.
Variable svc : Services Ext OutlookClient AIClient PipedriveClient Deal WebSocket.
Variable accept : WebSocket -> Ext -> result unit * Ext.

(** [send_update] never raises and touches neither the log table nor the
    connections of other users. To a user without a connection it sends
    nothing; after [connect] it sends on the socket connected last; and when
    that send fails the user is disconnected, so that the next [send_update]
    sends nothing. *)
Theorem send_update_drops_broken_connection (user_id : string) (data : Update)
    (st : State Ext WebSocket) :
  let '(r, st', evs) := send_update svc user_id data st in
  r = Return tt
  /\ email_analysis_logs st' = email_analysis_logs st
  /\ (forall other, other <> user_id ->
        active_connections st' !! other = active_connections st !! other)
  /\ (active_connections st !! user_id = None -> evs = [] /\ st' = st)
  /\ (forall ws st0,
        connect accept ws user_id st0 = (Return tt, st, []) ->
        exists o, evs = [Called SendText o] /\
                  (send_text svc ws data (ext st)).1
                  = match o with Raised e => Raise e | _ => Return tt end)
  /\ (forall e, evs = [Called SendText (Raised e)] ->
        active_connections st' !! user_id = None /\
        send_update svc user_id data st' = (Return tt, st', [])).
Proof.
  assert (Hconn : forall ws st0,
            connect accept ws user_id st0 = (Return tt, st, []) ->
            active_connections st !! user_id = Some ws).
  { intros ws st0. unfold connect.
    destruct (accept ws (ext st0)) as [[[]|e0] x0]; [|discriminate].
    intros [= <-]. cbn. apply lookup_insert_eq. }
  unfold send_update, disconnect, call, modify.
  destruct (active_connections st !! user_id) as [ws'|] eqn:Hc; cbn.
  2:{ repeat split; auto; try discriminate.
      intros ws st0 H. specialize (Hconn ws st0 H). congruence. }
  destruct (send_text svc ws' data (ext st)) as [[[]|e] x'] eqn:Hs; cbn.
  - repeat split; auto; try discriminate.
    intros ws st0 H. specialize (Hconn ws st0 H). injection Hconn as <-.
    exists Returned. rewrite Hs. split; reflexivity.
  - repeat split; auto; try discriminate.
    + intros other Ho. rewrite lookup_delete_ne; [reflexivity|congruence].
    + intros ws st0 H. specialize (Hconn ws st0 H). injection Hconn as <-.
      exists (Raised e). rewrite Hs. split; reflexivity.
    + rewrite lookup_delete_eq. reflexivity.
    + rewrite lookup_delete_eq. reflexivity.
Qed.

End SocketFacts.

Section SocketRuns.
Import Pipeline Samples.

Lemma send_update_drops_broken_connection_witness :
  active_connections
    (send_update broken_socket_services "user123"
       {| update_type := "email_processed"; update_analysis := sample_analysis;
          update_deal_created := false |} connected_state).1.2 !! "user123" = None.
Proof.
  pose proof (send_update_drops_broken_connection broken_socket_services
                (fun _ crm => (Return tt, crm)) "user123"
                {| update_type := "email_processed"; update_analysis := sample_analysis;
                   update_deal_created := false |} connected_state) as H.
  destruct (send_update broken_socket_services "user123" _ connected_state)
    as [[r st'] evs] eqn:E.
  destruct H as (_ & _ & _ & _ & _ & H).
  apply (H timeout_error).
  vm_compute in E. injection E as _ _ <-. reflexivity.
Defined.

End SocketRuns.

(** ** More on [refreshStatus] and [authorize] *)

Section HookAndProviderMore.
Import NextAuthRoute UseOAuth.

(** A call of [refreshStatus] that passes the debounce stores the answer of
    the status route in [serviceStatus] exactly when the route answered ok
    with a body that parses, and then shows no error; in every other case
    [serviceStatus] keeps its value and an error text is shown. Either way
    [loading] ends false. *)
Theorem refreshStatus_stores_only_ok_answers (seen : Z) (userId : string) (now : Z)
    (net : network) (st : HookState) :
  2000 <= now - seen ->
  let st' := fst (refreshStatus seen userId now net st) in
  loading st' = false
  /\ (forall response data,
        net (status_request userId) = Normal response -> ok response = true ->
        json_body response = Normal data ->
        serviceStatus st' = data /\ error st' = None)
  /\ ((forall response data,
         net (status_request userId) = Normal response -> ok response = true ->
         json_body response <> Normal data) ->
      serviceStatus st' = serviceStatus st /\ error st' <> None).
Proof.
  intros Hd st'. subst st'. unfold refreshStatus.
  destruct (Z.ltb_spec (now - seen) 2000); [lia|].
  unfold refreshStatus_try, mbind, Eff_bind, bind, lift, fetch.
  split; [|split].
  - destruct (net (status_request userId)) as [response|e]; cbn; [|reflexivity].
    destruct (negb (ok response)); cbn.
    + destruct (json_body response) as [ed|e]; cbn; [|reflexivity].
      destruct (get ed "error"); reflexivity.
    + destruct (json_body response); reflexivity.
  - intros response data Hn Hok Hj. rewrite Hn. cbn. rewrite Hok. cbn.
    rewrite Hj. cbn. split; reflexivity.
  - intros N. destruct (net (status_request userId)) as [response|e]; cbn;
      [|split; [reflexivity|discriminate]].
    destruct (ok response) eqn:Hok; cbn.
    + destruct (json_body response) as [data|e] eqn:Hj; cbn;
        [|split; [reflexivity|discriminate]].
      destruct (N response data eq_refl Hok). exact Hj.
    + destruct (json_body response) as [ed|e]; cbn;
        [|split; [reflexivity|discriminate]].
      destruct (get ed "error"); cbn; split; first [reflexivity|discriminate].
Qed.

Lemma refreshStatus_stores_only_ok_answers_witness :
  let net : network := fun _ =>
    Normal {| status := 200; json_body := Normal (JObj [("outlook", JBool true)]);
              text_body := Normal "" |} in
  serviceStatus (fst (refreshStatus 0 "u1" 1700000000000 net initial))
  = JObj [("outlook", JBool true)].
Proof.
  intros net.
  destruct (refreshStatus_stores_only_ok_answers 0 "u1" 1700000000000 net initial)
    as (_ & H & _); [lia|].
  apply (H {| status := 200; json_body := Normal (JObj [("outlook", JBool true)]);
              text_body := Normal "" |} (JObj [("outlook", JBool true)]));
    reflexivity.
Defined.

(** [split('@')[0]]: the name given to a user is the part of the email before
    its first at sign, it contains no at sign, and an email without one is
    taken whole. *)
Theorem email_prefix_is_local_part (s : string) :
  (exists rest, s = email_prefix s +:+ rest /\
                (rest = "" \/ exists tail, rest = String at_sign tail))
  /\ email_prefix (email_prefix s) = email_prefix s
  /\ ~ In at_sign (String.list_ascii_of_string (email_prefix s)).
Proof.
  assert (Hcons : forall c t, email_prefix (String c t)
                    = if Ascii.eqb c at_sign then "" else String c (email_prefix t))
    by reflexivity.
  induction s as [|c s (IH1 & IH2 & IH3)].
  - repeat split; [|intros []].
    exists "". split; [reflexivity|left; reflexivity].
  - rewrite !Hcons. destruct (Ascii.eqb c at_sign) eqn:Hc.
    + apply Ascii.eqb_eq in Hc. subst c. repeat split; [|intros []].
      exists (String at_sign s). split; [reflexivity|right; eauto].
    + repeat split.
      * destruct IH1 as (rest & Hs & Hr). exists rest. split; [|exact Hr].
        change (String c s = String c (email_prefix s +:+ rest)).
        rewrite <- Hs. reflexivity.
      * rewrite Hcons, Hc, IH2. reflexivity.
      * intros [H|H]; [|exact (IH3 H)].
        subst c. rewrite Ascii.eqb_refl in Hc. discriminate.
Qed.

(** When the lookup answers ok with a JSON object, [authorize] returns the
    backend's [id], [email] and [image] as they are and the backend's [name]
    unless it is missing or falsy, in which case the name is the email prefix;
    one lookup request is sent. *)
Theorem authorize_returns_backend_user (api_url : option string) (net : network)
    (e p : string) (response : FetchResponse) (fields : list (string * json)) :
  e <> "" -> p <> "" ->
  net (user_lookup_request api_url e) = Normal response ->
  ok response = true ->
  json_body response = Normal (JObj fields) ->
  authorize api_url net (Some {| cred_email := Some e; cred_password := Some p |})
  = (Normal (Some {| user_id := member "id" fields;
                     user_email := member "email" fields;
                     user_name :=
                       Some (or_else (member "name" fields) (JStr (email_prefix e)));
                     user_image := member "image" fields |}),
     [user_lookup_request api_url e]).
Proof.
  intros He Hp Hnet Hok Hj.
  rewrite (authorize_unfold api_url net e p He Hp).
  unfold try_catch, authorize_try, mbind, Eff_bind, bind, lift, fetch, mret, Eff_ret.
  rewrite Hnet, Hok, Hj. reflexivity.
Qed.

Lemma authorize_returns_backend_user_witness :
  let response := {| status := 200;
                     json_body := Normal (JObj [("id", JStr "42"); ("name", JStr "")]);
                     text_body := Normal "" |} in
  fst (authorize None (fun _ => Normal response)
         (Some {| cred_email := Some "ann@example.com"; cred_password := Some "pw" |}))
  = Normal (Some {| user_id := Some (JStr "42"); user_email := None;
                    user_name := Some (JStr "ann"); user_image := None |}).
Proof.
  intros response.
  rewrite (authorize_returns_backend_user None (fun _ => Normal response)
             "ann@example.com" "pw" response [("id", JStr "42"); ("name", JStr "")]);
    [reflexivity|discriminate|discriminate|reflexivity|reflexivity|reflexivity].
Defined.

End HookAndProviderMore.
